(** * The x axis of a cartesian chart (victory-native-xl)

    A shallow embedding of the two versions of the [XAxis] component found in
    the repository,

      - [src/lib/src/cartesian/components/XAxis.tsx]  (module [Lib]),
      - [src/unnamed/part_000]                        (module [Part000]),

    and of the properties claimed for them.

    Conventions of the embedding.

    - A JavaScript [number] is an exact rational in canonical form ([Qc]):
      arithmetic does not round and there is no NaN and no infinity.  On
      [Qc] Leibniz equality is numeric equality, which is what [Object.is]
      and [===] decide on such numbers.  Where the rounding of the doubles
      that the code computes with decides a property, the arithmetic is
      taken again in binary64 (module [Double]).
    - A JavaScript object (array, function, scale, font) is a value together
      with a reference, [Obj]; [Object.is] on objects compares references.
      A call that returns an array or a scale ([downsampleTicks], [ticks],
      [rescaleX]) returns a new object.
    - React hooks are explicit state: a [useMemo] cell stores the dependency
      list and the value of the last computation, [useRef] is a field of the
      component state, and a render is a function from properties and
      state to output and state.
    - Functions that the component imports from modules outside the two
      source files (d3, Skia, react-native, the [utils] directory) are
      fields of the class [Imports]. *)

From Stdlib Require Import ZArith QArith Qcanon Qcabs.
From Stdlib Require Import List String DecimalString Bool Arith Lia.
From Stdlib Require Floats.PrimFloat.
Import ListNotations.

Set Implicit Arguments.

(** ** Numbers *)

Definition number : Set := Qc.

Definition int (z : Z) : number := Q2Qc (inject_Z z).

Definition Qcleb (a b : number) : bool := Qle_bool a b.
Definition Qcltb (a b : number) : bool := negb (Qle_bool b a).
Definition Qceqb (a b : number) : bool := Qeq_bool a b.

(** JavaScript truthiness of a number: every number but zero. *)
Definition truthy (a : number) : bool := negb (Qceqb a (int 0)).

(** [Math.PI], the double nearest to pi, which is this rational. *)
Definition Math_PI : number := Q2Qc (884279719003555 # 281474976710656).

(** [Math.abs] *)
Definition Math_abs (a : number) : number := Qcabs a.

(** ** Objects and references *)

Inductive Ref : Set :=
| Ext (n : nat)   (* an object made by the enclosing chart *)
| Loc (n : nat).  (* an object made by the axis during a render *)

Definition Ref_eqb (r s : Ref) : bool :=
  match r, s with
  | Ext n, Ext m => Nat.eqb n m
  | Loc n, Loc m => Nat.eqb n m
  | _, _ => false
  end.

Record Obj (A : Type) : Type := mkObj { ref : Ref; deref : A }.

Arguments mkObj {A} ref deref.

(** [Object.is] on two objects, on two numbers, and on properties that may
    be [undefined]. *)
Definition same_obj {A} (a b : Obj A) : bool := Ref_eqb (ref a) (ref b).

Definition same_opt {A} (same : A -> A -> bool) (a b : option A) : bool :=
  match a, b with
  | None, None => true
  | Some x, Some y => same x y
  | _, _ => false
  end.

(** References of objects made by the enclosing chart, of objects made by
    the axis, and of objects made before the axis has made [n] of them. *)
Definition is_ext (r : Ref) : Prop :=
  match r with Ext _ => True | Loc _ => False end.
Definition is_loc (r : Ref) : Prop :=
  match r with Loc _ => True | Ext _ => False end.
Definition older (n : nat) (r : Ref) : Prop :=
  match r with Loc k => (k < n)%nat | Ext _ => True end.

(** [a] and [b] are one object if they have one reference. *)
Definition agree {A} (a b : Obj A) : Prop := ref a = ref b -> a = b.

(** [p ?? d] and the default of a destructured property. *)
Definition dflt {A} (o : option A) (d : A) : A :=
  match o with Some a => a | None => d end.

(** ** Values of the chart data *)

(** The values a label can be made of: a field of an input datum, or
    [undefined]. *)
Inductive JsValue : Type :=
| VUndefined
| VNumber (n : number)
| VString (s : string).

(** [ix[tick]]: reading an array at a number.  The property key of a number
    is an array index only when the number is a non-negative integer; any
    other key, and any index past the end, yields [undefined]. *)
Definition is_index (tick : number) : bool :=
  Z.eqb (Zpos (Qden tick)) 1 && Z.leb 0 (Qnum tick).

Definition array_get (ix : list JsValue) (tick : number) : JsValue :=
  if is_index tick then nth (Z.to_nat (Qnum tick)) ix VUndefined
  else VUndefined.

(** ** Geometry and the canvas nodes *)

Record SkPoint : Set := vec { px : number; py : number }.

Record ChartBounds : Set :=
  { b_left : number; b_right : number; b_top : number; b_bottom : number }.

(** A d3 scale: callable, with [ticks] and [domain]. *)
Record Scale : Type :=
  { scale_fn : number -> number;
    scale_ticks : number -> list number;
    scale_domain : list number }.

Definition call (s : Obj Scale) (v : number) : number := scale_fn (deref s) v.
Definition ticks (s : Obj Scale) (count : number) : list number :=
  scale_ticks (deref s) count.
Definition domain (s : Obj Scale) : list number := scale_domain (deref s).

(** A Skia font.  The component calls [getGlyphWidths] through [?.], so the
    method may be missing. *)
Record SkFont : Type :=
  { getSize : number;
    getGlyphIDs : string -> list nat;
    getGlyphWidths : option (list nat -> list number) }.

(** A Skia [Matrix4]: sixteen numbers. *)
Record Matrix4 : Set :=
  { m0 : number; m1 : number; m2 : number; m3 : number;
    m4 : number; m5 : number; m6 : number; m7 : number;
    m8 : number; m9 : number; m10 : number; m11 : number;
    m12 : number; m13 : number; m14 : number; m15 : number }.

(** A d3 [ZoomTransform(k, x, y)]. *)
Record ZoomTransform : Set :=
  { zoom_k : number; zoom_x : number; zoom_y : number }.

Inductive AxisSide : Set := Top | Bottom.
Inductive YAxisSide : Set := YLeft | YRight.
Inductive LabelPosition : Set := Inset | Outset.

Definition AxisSide_eqb (a b : AxisSide) : bool :=
  match a, b with Top, Top | Bottom, Bottom => true | _, _ => false end.
Definition YAxisSide_eqb (a b : YAxisSide) : bool :=
  match a, b with YLeft, YLeft | YRight, YRight => true | _, _ => false end.
Definition LabelPosition_eqb (a b : LabelPosition) : bool :=
  match a, b with Inset, Inset | Outset, Outset => true | _, _ => false end.

(** What the component imports. *)
Class Imports : Type :=
  { (* utils/tickHelpers *)
    downsampleTicks : list number -> number -> list number;
    (* utils/getOffsetFromAngle *)
    getOffsetFromAngle : number -> number;
    (* react-native: StyleSheet.hairlineWidth *)
    hairlineWidth : number;
    (* d3-zoom: ZoomTransform.prototype.rescaleX *)
    rescaleX : ZoomTransform -> Scale -> Scale;
    (* String(n) for a number n *)
    Number_toString : number -> string }.

(** Modelled from the spec: the constant [DEFAULT_TICK_COUNT] of
    [utils/tickHelpers], which is not among the source files; claim C2 and
    [XAxisDefaults.tickCount] give 5. *)
Definition DEFAULT_TICK_COUNT : number := int 5.

(** The properties that [XAxis] hands on to every [XAxle] ([restProps]). *)
Module Rest.
Record Props : Type :=
  { axisSide : option AxisSide;
    yAxisSide : option YAxisSide;
    labelPosition : option LabelPosition;
    labelRotate : option number;
    labelOffset : option number;
    labelColor : option string;
    lineWidth : option number;
    lineColor : option string;
    formatXLabel : option (Obj (JsValue -> string));
    ix : option (Obj (list JsValue));
    isNumericalData : bool;
    linePathEffect : option nat;
    chartBounds : Obj ChartBounds }.
End Rest.

(** The shared value [matrix]: the component holds a reference to it; its
    current content is read by the animated reaction only. *)
Definition SharedMatrix : Set := Ref.

Module Axis.
Record Props : Type :=
  { xScale : Obj Scale;
    yScale : Obj Scale;
    tickCount : option number;
    tickValues : option (Obj (list number));
    font : option (Obj SkFont);
    enableRescaling : bool;
    zoom : option ZoomTransform;
    matrix : option SharedMatrix;
    rest : Rest.Props }.
End Axis.

(** The properties [p] with another [zoom] and [enableRescaling]. *)
Definition set_zoom (zoom : option ZoomTransform) (enableRescaling : bool)
    (p : Axis.Props) : Axis.Props :=
  {| Axis.xScale := Axis.xScale p;
     Axis.yScale := Axis.yScale p;
     Axis.tickCount := Axis.tickCount p;
     Axis.tickValues := Axis.tickValues p;
     Axis.font := Axis.font p;
     Axis.enableRescaling := enableRescaling;
     Axis.zoom := zoom;
     Axis.matrix := Axis.matrix p;
     Axis.rest := Axis.rest p |}.

Module Axle.
Record Props : Type :=
  { xScale : Obj Scale;
    yScale : Obj Scale;
    tick : number;
    y1 : number;
    y2 : number;
    matrix : option SharedMatrix;
    font : option (Obj SkFont);
    fontSize : number;
    rest : Rest.Props }.
End Axle.

(** The two canvas nodes of a tick. *)
Record PointsNode : Type :=
  { pn_points : list SkPoint;
    pn_color : string;
    pn_strokeWidth : number;
    pn_effect : option nat;
    pn_matrix : option SharedMatrix }.

Record TextNode : Type :=
  { tn_translateY : number;
    tn_rotate : number;
    tn_origin : option SkPoint;
    tn_color : string;
    tn_text : string;
    tn_font : Obj SkFont;
    tn_y : number;
    tn_x : number;
    tn_matrix : option SharedMatrix }.

Record Drawn : Type :=
  { gridline : option PointsNode;
    label : option TextNode }.

(** ** Hooks *)

(** A [useMemo] cell: the dependencies and the value of the last
    computation, nothing before the first render. *)
Definition Memo (D A : Type) : Type := option (D * A).

(** [useMemo(calc, deps)]: the stored value when every dependency is
    [Object.is]-equal to the stored one, a new computation otherwise. *)
Definition useMemo {D A} (same : D -> D -> bool) (cell : Memo D A)
    (calc : unit -> A) (deps : D) : A * Memo D A :=
  match cell with
  | Some (d, a) =>
      if same d deps then (a, cell)
      else let a' := calc tt in (a', Some (deps, a'))
  | None => let a' := calc tt in (a', Some (deps, a'))
  end.

(** ** The per-tick leaf: what both versions of [XAxle] compute alike *)

Module Leaf.
Section Body.
Context {I : Imports}.
Variable p : Axle.Props.

(** The destructured properties, with their defaults. *)
Definition axisSide : AxisSide := dflt (Rest.axisSide (Axle.rest p)) Bottom.
Definition yAxisSide : YAxisSide := dflt (Rest.yAxisSide (Axle.rest p)) YLeft.
Definition labelPosition : LabelPosition :=
  dflt (Rest.labelPosition (Axle.rest p)) Outset.
Definition labelRotate : option number := Rest.labelRotate (Axle.rest p).
Definition labelOffset : number := dflt (Rest.labelOffset (Axle.rest p)) (int 2).
Definition labelColor : string :=
  dflt (Rest.labelColor (Axle.rest p)) "#000000"%string.
Definition lineWidth : number :=
  dflt (Rest.lineWidth (Axle.rest p)) hairlineWidth.
Definition lineColor : string :=
  dflt (Rest.lineColor (Axle.rest p)) "hsla(0, 0%, 0%, 0.25)"%string.

(** [String(label)], the default of [formatXLabel]. *)
Definition String_ (label : JsValue) : string :=
  match label with
  | VUndefined => "undefined"%string
  | VNumber n => Number_toString n
  | VString s => s
  end.

Definition formatXLabel : JsValue -> string :=
  match Rest.formatXLabel (Axle.rest p) with
  | Some f => deref f
  | None => String_
  end.

Definition ix : list JsValue :=
  match Rest.ix (Axle.rest p) with Some a => deref a | None => [] end.

Definition chartBounds : ChartBounds := deref (Rest.chartBounds (Axle.rest p)).

(** [const val = isNumericalData ? tick : ix[tick]] *)
Definition val : JsValue :=
  if Rest.isNumericalData (Axle.rest p) then VNumber (Axle.tick p)
  else array_get ix (Axle.tick p).

Definition contentX : string := formatXLabel val.

(** [font?.getGlyphWidths?.(font.getGlyphIDs(contentX))
       .reduce((sum, value) => sum + value, 0) ?? 0] *)
Definition labelWidth : number :=
  match Axle.font p with
  | Some f =>
      match getGlyphWidths (deref f) with
      | Some widths =>
          fold_left (fun sum value => sum + value)
            (widths (getGlyphIDs (deref f) contentX)) 0
      | None => 0
      end
  | None => 0
  end.

Definition labelX : number :=
  call (Axle.xScale p) (Axle.tick p) - labelWidth / int 2.

Definition labelY : number :=
  if AxisSide_eqb axisSide Bottom && LabelPosition_eqb labelPosition Outset
  then b_bottom chartBounds + labelOffset + Axle.fontSize p
  else if AxisSide_eqb axisSide Bottom && LabelPosition_eqb labelPosition Inset
  then call (Axle.yScale p) (Axle.y2 p) - labelOffset
  else if AxisSide_eqb axisSide Top && LabelPosition_eqb labelPosition Outset
  then call (Axle.yScale p) (Axle.y1 p) - labelOffset
  else call (Axle.yScale p) (Axle.y1 p) + Axle.fontSize p + labelOffset.

(** The origin and the translation of a rotated label.  [!labelRotate] is
    true of [undefined] and of zero. *)
Definition rotation : option SkPoint * number :=
  match labelRotate with
  | None => (None, 0)
  | Some r =>
      if negb (truthy r) then (None, 0)
      else if AxisSide_eqb axisSide Bottom
              && LabelPosition_eqb labelPosition Outset
      then (Some (vec (labelX + labelWidth / int 2) labelY),
            Math_abs (labelWidth / int 2 * getOffsetFromAngle r))
      else if AxisSide_eqb axisSide Bottom
              && LabelPosition_eqb labelPosition Inset
      then (Some (vec (labelX + labelWidth / int 2) labelY),
            - Math_abs (labelWidth / int 2 * getOffsetFromAngle r))
      else if AxisSide_eqb axisSide Top
              && LabelPosition_eqb labelPosition Inset
      then (Some (vec (labelX + labelWidth / int 2)
                      (labelY - Axle.fontSize p / int 4)),
            Math_abs (labelWidth / int 2 * getOffsetFromAngle r))
      else (Some (vec (labelX + labelWidth / int 2)
                      (labelY - Axle.fontSize p / int 4)),
            - Math_abs (labelWidth / int 2 * getOffsetFromAngle r))
  end.

Definition origin : option SkPoint := fst rotation.
Definition rotateOffset : number := snd rotation.

(** The two computations that [XAxle] memoises. *)
Definition calc_p1 (_ : unit) : SkPoint :=
  vec (call (Axle.xScale p) (Axle.tick p)) (call (Axle.yScale p) (Axle.y2 p)).
Definition calc_p2 (_ : unit) : SkPoint :=
  vec (call (Axle.xScale p) (Axle.tick p)) (call (Axle.yScale p) (Axle.y1 p)).

(** The [Points] node of the gridline, drawn when [lineWidth > 0]. *)
Definition line_node (p1 p2 : SkPoint) : option PointsNode :=
  if Qcltb 0 lineWidth then
    Some {| pn_points := [p1; p2];
            pn_color := lineColor;
            pn_strokeWidth := lineWidth;
            pn_effect := Rest.linePathEffect (Axle.rest p);
            pn_matrix := Axle.matrix p |}
  else None.

(** The [Text] node of the label, drawn when
    [font && labelWidth && canFitLabelContent]. *)
Definition text_node (canFitLabelContent : bool) : option TextNode :=
  match Axle.font p with
  | Some f =>
      if truthy labelWidth && canFitLabelContent then
        Some {| tn_translateY := rotateOffset;
                tn_rotate := Math_PI / int 180 * dflt labelRotate 0;
                tn_origin := origin;
                tn_color := labelColor;
                tn_text := contentX;
                tn_font := f;
                tn_y := labelY;
                tn_x := labelX;
                tn_matrix := Axle.matrix p |}
      else None
  | None => None
  end.

End Body.
End Leaf.

(** ** The component tree *)

(** React keeps the state of a child under its key.  The key of a leaf is
    [`x-tick-${tick}`], one key per number. *)
Fixpoint child_state {S} (key : number) (children : list (number * S))
    : option S :=
  match children with
  | [] => None
  | (k, s) :: rest => if Qceqb k key then Some s else child_state key rest
  end.

Record Tree (H S : Type) : Type :=
  { hooks : H; children : list (number * S) }.

(** One render of the axis: the container is rendered with its own hooks,
    then each element it returns is rendered with the state its key had
    after the previous render, or as a new leaf.  (When the container
    returns the very elements of the previous render React does not render
    the leaves again; a leaf rendered again with the same properties and
    state draws the same, so the model renders them.  Keys are taken to be
    distinct, as React requires.) *)
Definition render_tree {H S}
    (XAxis : Axis.Props -> H -> list Axle.Props * H)
    (XAxle : Axle.Props -> S -> Drawn * S) (mount : S)
    (p : Axis.Props) (t : Tree H S) : list Drawn * Tree H S :=
  let (xAxisNodes, h) := XAxis p (hooks t) in
  let leaves :=
    map (fun e => (Axle.tick e,
                   XAxle e (dflt (child_state (Axle.tick e) (children t)) mount)))
        xAxisNodes in
  (map (fun l => fst (snd l)) leaves,
   {| hooks := h; children := map (fun l => (fst l, snd (snd l))) leaves |}).

(** * [src/lib/src/cartesian/components/XAxis.tsx] *)

Module Lib.
Section Component.
Context {I : Imports}.

(** *** [XAxle] *)

Definition canFitLabelContent (p : Axle.Props) : bool :=
  Qcleb (b_left (Leaf.chartBounds p)) (call (Axle.xScale p) (Axle.tick p))
  && Qcleb (call (Axle.xScale p) (Axle.tick p)) (b_right (Leaf.chartBounds p))
  && match Leaf.yAxisSide p with
     | YLeft =>
         Qcltb (Leaf.labelX p + Leaf.labelWidth p)
               (b_right (Leaf.chartBounds p))
     | YRight => Qcltb (b_left (Leaf.chartBounds p)) (Leaf.labelX p)
     end.

(** The hooks of a leaf: [p1] and [p2], each memoised on [[tick]]. *)
Record AxleState : Type :=
  { memo_p1 : Memo number SkPoint;
    memo_p2 : Memo number SkPoint }.

Definition mount_axle : AxleState := {| memo_p1 := None; memo_p2 := None |}.

Definition XAxle (p : Axle.Props) (s : AxleState) : Drawn * AxleState :=
  let (p1, c1) := useMemo Qceqb (memo_p1 s) (Leaf.calc_p1 p) (Axle.tick p) in
  let (p2, c2) := useMemo Qceqb (memo_p2 s) (Leaf.calc_p2 p) (Axle.tick p) in
  ({| gridline := Leaf.line_node p p1 p2;
      label := Leaf.text_node p (canFitLabelContent p) |},
   {| memo_p1 := c1; memo_p2 := c2 |}).

(** In the states of the hooks of a leaf that renders can lead to, the two
    points were computed by one render, for one tick. *)
Definition axle_ok (s : AxleState) : Prop :=
  (memo_p1 s = None /\ memo_p2 s = None)
  \/ exists t a b,
       memo_p1 s = Some (t, a) /\ memo_p2 s = Some (t, b) /\ px a = px b.

(** *** [XAxis] *)

(** The dependencies of [xAxisNodes]:
    [[xTicksNormalized, fontSize, y1, y2]]. *)
Definition NodesDeps : Type := Obj (list number) * number * number * number.

Definition same_NodesDeps (a b : NodesDeps) : bool :=
  let '(ta, fa, ya1, ya2) := a in
  let '(tb, fb, yb1, yb2) := b in
  same_obj ta tb && Qceqb fa fb && Qceqb ya1 yb1 && Qceqb ya2 yb2.

(** The hooks of the container, and the number of objects it has made. *)
Record AxisState : Type :=
  { next : nat;
    memo_xAxisNodes : Memo NodesDeps (list Axle.Props) }.

Definition mount_axis : AxisState := {| next := 0; memo_xAxisNodes := None |}.

(** [const xScale = zoom ? zoom.rescaleX(xScaleProp) : xScaleProp] *)
Definition xScale (p : Axis.Props) (fresh : Ref) : Obj Scale :=
  match Axis.zoom p with
  | Some zoom => mkObj fresh (rescaleX zoom (deref (Axis.xScale p)))
  | None => Axis.xScale p
  end.

(** [const [y1 = 0, y2 = 0] = yScale.domain()] *)
Definition y1 (p : Axis.Props) : number := nth 0 (domain (Axis.yScale p)) 0.
Definition y2 (p : Axis.Props) : number := nth 1 (domain (Axis.yScale p)) 0.

(** [const fontSize = font?.getSize() ?? 0] *)
Definition fontSize (p : Axis.Props) : number :=
  match Axis.font p with Some f => getSize (deref f) | None => 0 end.

Definition tickCount (p : Axis.Props) : number :=
  dflt (Axis.tickCount p) DEFAULT_TICK_COUNT.

(** The tick list, a new array at every render. *)
Definition xTicksNormalized (p : Axis.Props) (xScale : Obj Scale)
    : list number :=
  match Axis.tickValues p with
  | Some tickValues => downsampleTicks (deref tickValues) (tickCount p)
  | None =>
      if Axis.enableRescaling p then ticks xScale (tickCount p)
      else ticks (Axis.xScale p) (tickCount p)
  end.

(** The element [<XAxle {...restProps} font tick xScale yScale y1 y2
    fontSize key matrix />]. *)
Definition element (p : Axis.Props) (xScale : Obj Scale) (tick : number)
    : Axle.Props :=
  {| Axle.xScale := xScale;
     Axle.yScale := Axis.yScale p;
     Axle.tick := tick;
     Axle.y1 := y1 p;
     Axle.y2 := y2 p;
     Axle.matrix := Axis.matrix p;
     Axle.font := Axis.font p;
     Axle.fontSize := fontSize p;
     Axle.rest := Axis.rest p |}.

Definition XAxis (p : Axis.Props) (s : AxisState)
    : list Axle.Props * AxisState :=
  let xScale := xScale p (Loc (next s)) in
  let xTicksNormalized := mkObj (Loc (S (next s))) (xTicksNormalized p xScale) in
  let (xAxisNodes, c) :=
    useMemo same_NodesDeps (memo_xAxisNodes s)
      (fun _ => map (element p xScale) (deref xTicksNormalized))
      (xTicksNormalized, fontSize p, y1 p, y2 p) in
  (xAxisNodes, {| next := 2 + next s; memo_xAxisNodes := c |}).

Definition mount : Tree AxisState AxleState :=
  {| hooks := mount_axis; children := [] |}.

Definition render : Axis.Props -> Tree AxisState AxleState ->
    list Drawn * Tree AxisState AxleState :=
  render_tree XAxis XAxle mount_axle.

(** The states of the container's hooks that renders can lead to. *)
Inductive reachable : AxisState -> Prop :=
| reach_mount : reachable mount_axis
| reach_render (p : Axis.Props) (s : AxisState) :
    reachable s -> reachable (snd (XAxis p s)).

(** The array remembered with [xAxisNodes] was made by an earlier render. *)
Definition axis_ok (s : AxisState) : Prop :=
  forall d nodes,
    memo_xAxisNodes s = Some (d, nodes) ->
    exists k, ref (fst (fst (fst d))) = Loc k /\ (k < next s)%nat.

End Component.
End Lib.

(** * [src/unnamed/part_000] *)

Module Part000.
Section Component.
Context {I : Imports}.

(** *** [XAxle] *)

(** [const canFitLabelContent = true;] the test of the other version is
    commented out. *)
Definition canFitLabelContent (p : Axle.Props) : bool := true.

(** The dependencies of [p1] and of [p2]: [[tick, xScale, y2, yScale]] and
    [[tick, xScale, y1, yScale]]. *)
Definition PointDeps : Type := number * Obj Scale * number * Obj Scale.

Definition same_PointDeps (a b : PointDeps) : bool :=
  let '(ta, xa, ya, sa) := a in
  let '(tb, xb, yb, sb) := b in
  Qceqb ta tb && same_obj xa xb && Qceqb ya yb && same_obj sa sb.

Record AxleState : Type :=
  { memo_p1 : Memo PointDeps SkPoint;
    memo_p2 : Memo PointDeps SkPoint }.

Definition mount_axle : AxleState := {| memo_p1 := None; memo_p2 := None |}.

Definition XAxle (p : Axle.Props) (s : AxleState) : Drawn * AxleState :=
  let (p1, c1) :=
    useMemo same_PointDeps (memo_p1 s) (Leaf.calc_p1 p)
      (Axle.tick p, Axle.xScale p, Axle.y2 p, Axle.yScale p) in
  let (p2, c2) :=
    useMemo same_PointDeps (memo_p2 s) (Leaf.calc_p2 p)
      (Axle.tick p, Axle.xScale p, Axle.y1 p, Axle.yScale p) in
  ({| gridline := Leaf.line_node p p1 p2;
      label := Leaf.text_node p (canFitLabelContent p) |},
   {| memo_p1 := c1; memo_p2 := c2 |}).

(** The states of the hooks of a leaf that renders can lead to hold the
    points of the dependencies they remember. *)
Definition axle_ok (s : AxleState) : Prop :=
  (forall t x y ys v, memo_p1 s = Some ((t, x, y, ys), v) ->
                      v = vec (call x t) (call ys y))
  /\ (forall t x y ys v, memo_p2 s = Some ((t, x, y, ys), v) ->
                         v = vec (call x t) (call ys y)).

(** The scales that a leaf remembers are the scales of the render [p]
    wherever they have the same reference. *)
Definition axle_coherent (s : AxleState) (p : Axle.Props) : Prop :=
  forall t x y ys v,
    memo_p1 s = Some ((t, x, y, ys), v) \/ memo_p2 s = Some ((t, x, y, ys), v) ->
    agree x (Axle.xScale p) /\ agree ys (Axle.yScale p).

(** *** [XAxis] *)

(** [[tickValues, tickCount, xScaleProp]] *)
Definition TicksDeps : Type :=
  option (Obj (list number)) * number * Obj Scale.

Definition same_TicksDeps (a b : TicksDeps) : bool :=
  let '(va, ca, xa) := a in
  let '(vb, cb, xb) := b in
  same_opt same_obj va vb && Qceqb ca cb && same_obj xa xb.

(** [[xScaleProp, xTicksNormalized]] *)
Definition ScaleDeps : Type := Obj Scale * Obj (list number).

Definition same_ScaleDeps (a b : ScaleDeps) : bool :=
  same_obj (fst a) (fst b) && same_obj (snd a) (snd b).

(** The eighteen dependencies of [xAxisNodes]. *)
Record NodesDeps : Type :=
  { d_xTicksNormalized : Obj (list number);
    d_font : option (Obj SkFont);
    d_xScale : Obj Scale;
    d_y1 : number;
    d_y2 : number;
    d_fontSize : number;
    d_matrix : option SharedMatrix;
    d_axisSide : option AxisSide;
    d_formatXLabel : option (Obj (JsValue -> string));
    d_labelColor : option string;
    d_labelOffset : option number;
    d_labelPosition : option LabelPosition;
    d_lineColor : option string;
    d_lineWidth : option number;
    d_yAxisSide : option YAxisSide;
    d_isNumericalData : bool;
    d_chartBounds : Obj ChartBounds;
    d_ix : option (Obj (list JsValue)) }.

Definition same_NodesDeps (a b : NodesDeps) : bool :=
  same_obj (d_xTicksNormalized a) (d_xTicksNormalized b)
  && same_opt same_obj (d_font a) (d_font b)
  && same_obj (d_xScale a) (d_xScale b)
  && Qceqb (d_y1 a) (d_y1 b)
  && Qceqb (d_y2 a) (d_y2 b)
  && Qceqb (d_fontSize a) (d_fontSize b)
  && same_opt Ref_eqb (d_matrix a) (d_matrix b)
  && same_opt AxisSide_eqb (d_axisSide a) (d_axisSide b)
  && same_opt same_obj (d_formatXLabel a) (d_formatXLabel b)
  && same_opt String.eqb (d_labelColor a) (d_labelColor b)
  && same_opt Qceqb (d_labelOffset a) (d_labelOffset b)
  && same_opt LabelPosition_eqb (d_labelPosition a) (d_labelPosition b)
  && same_opt String.eqb (d_lineColor a) (d_lineColor b)
  && same_opt Qceqb (d_lineWidth a) (d_lineWidth b)
  && same_opt YAxisSide_eqb (d_yAxisSide a) (d_yAxisSide b)
  && Bool.eqb (d_isNumericalData a) (d_isNumericalData b)
  && same_obj (d_chartBounds a) (d_chartBounds b)
  && same_opt same_obj (d_ix a) (d_ix b).

(** The hooks of the container: three [useMemo] cells and the [useRef]
    cell [matrixRef], whose content outlives the render. *)
Record AxisState : Type :=
  { next : nat;
    memo_xTicksNormalized : Memo TicksDeps (Obj (list number));
    matrixRef : option Matrix4;
    memo_xScale : Memo ScaleDeps (Obj Scale);
    memo_xAxisNodes : Memo NodesDeps (list Axle.Props) }.

Definition mount_axis : AxisState :=
  {| next := 0;
     memo_xTicksNormalized := None;
     matrixRef := None;
     memo_xScale := None;
     memo_xAxisNodes := None |}.

Definition y1 (p : Axis.Props) : number := nth 0 (domain (Axis.yScale p)) 0.
Definition y2 (p : Axis.Props) : number := nth 1 (domain (Axis.yScale p)) 0.

Definition fontSize (p : Axis.Props) : number :=
  match Axis.font p with Some f => getSize (deref f) | None => 0 end.

Definition tickCount (p : Axis.Props) : number :=
  dflt (Axis.tickCount p) DEFAULT_TICK_COUNT.

(** The computation memoised as [xTicksNormalized]. *)
Definition calc_xTicksNormalized (p : Axis.Props) (fresh : Ref) (_ : unit)
    : Obj (list number) :=
  mkObj fresh
    match Axis.tickValues p with
    | Some tickValues => downsampleTicks (deref tickValues) (tickCount p)
    | None => ticks (Axis.xScale p) (tickCount p)
    end.

(** The computation memoised as [xScale]:
    [matrixRef.current
       ? new ZoomTransform(matrixRef.current[0], matrixRef.current[3],
                           matrixRef.current[7]).rescaleX(xScaleProp)
       : xScaleProp] *)
Definition calc_xScale (p : Axis.Props) (current : option Matrix4)
    (fresh : Ref) (_ : unit) : Obj Scale :=
  match current with
  | Some m =>
      mkObj fresh
        (rescaleX {| zoom_k := m0 m; zoom_x := m3 m; zoom_y := m7 m |}
                  (deref (Axis.xScale p)))
  | None => Axis.xScale p
  end.

Definition element (p : Axis.Props) (xScale : Obj Scale) (tick : number)
    : Axle.Props :=
  {| Axle.xScale := xScale;
     Axle.yScale := Axis.yScale p;
     Axle.tick := tick;
     Axle.y1 := y1 p;
     Axle.y2 := y2 p;
     Axle.matrix := Axis.matrix p;
     Axle.font := Axis.font p;
     Axle.fontSize := fontSize p;
     Axle.rest := Axis.rest p |}.

Definition nodes_deps (p : Axis.Props) (xTicksNormalized : Obj (list number))
    (xScale : Obj Scale) : NodesDeps :=
  {| d_xTicksNormalized := xTicksNormalized;
     d_font := Axis.font p;
     d_xScale := xScale;
     d_y1 := y1 p;
     d_y2 := y2 p;
     d_fontSize := fontSize p;
     d_matrix := Axis.matrix p;
     d_axisSide := Rest.axisSide (Axis.rest p);
     d_formatXLabel := Rest.formatXLabel (Axis.rest p);
     d_labelColor := Rest.labelColor (Axis.rest p);
     d_labelOffset := Rest.labelOffset (Axis.rest p);
     d_labelPosition := Rest.labelPosition (Axis.rest p);
     d_lineColor := Rest.lineColor (Axis.rest p);
     d_lineWidth := Rest.lineWidth (Axis.rest p);
     d_yAxisSide := Rest.yAxisSide (Axis.rest p);
     d_isNumericalData := Rest.isNumericalData (Axis.rest p);
     d_chartBounds := Rest.chartBounds (Axis.rest p);
     d_ix := Rest.ix (Axis.rest p) |}.

Definition XAxis (p : Axis.Props) (s : AxisState)
    : list Axle.Props * AxisState :=
  let (xTicksNormalized, c1) :=
    useMemo same_TicksDeps (memo_xTicksNormalized s)
      (calc_xTicksNormalized p (Loc (next s)))
      (Axis.tickValues p, tickCount p, Axis.xScale p) in
  let (xScale, c2) :=
    useMemo same_ScaleDeps (memo_xScale s)
      (calc_xScale p (matrixRef s) (Loc (S (next s))))
      (Axis.xScale p, xTicksNormalized) in
  let (xAxisNodes, c3) :=
    useMemo same_NodesDeps (memo_xAxisNodes s)
      (fun _ => map (element p xScale) (deref xTicksNormalized))
      (nodes_deps p xTicksNormalized xScale) in
  (xAxisNodes,
   {| next := 2 + next s;
      memo_xTicksNormalized := c1;
      matrixRef := matrixRef s;
      memo_xScale := c2;
      memo_xAxisNodes := c3 |}).

(** The three cells of a render, one after the other, each with the value
    it returns and the cell it leaves. *)
Definition ticks_cell (p : Axis.Props) (s : AxisState)
    : Obj (list number) * Memo TicksDeps (Obj (list number)) :=
  useMemo same_TicksDeps (memo_xTicksNormalized s)
    (calc_xTicksNormalized p (Loc (next s)))
    (Axis.tickValues p, tickCount p, Axis.xScale p).

Definition scale_cell (p : Axis.Props) (s : AxisState)
    : Obj Scale * Memo ScaleDeps (Obj Scale) :=
  useMemo same_ScaleDeps (memo_xScale s)
    (calc_xScale p (matrixRef s) (Loc (S (next s))))
    (Axis.xScale p, fst (ticks_cell p s)).

Definition nodes_cell (p : Axis.Props) (s : AxisState)
    : list Axle.Props * Memo NodesDeps (list Axle.Props) :=
  useMemo same_NodesDeps (memo_xAxisNodes s)
    (fun _ => map (element p (fst (scale_cell p s)))
                  (deref (fst (ticks_cell p s))))
    (nodes_deps p (fst (ticks_cell p s)) (fst (scale_cell p s))).

(** The animated reaction
    [useAnimatedReaction(() => matrix?.value,
                         () => (matrixRef.current = matrix?.value))]:
    when it runs, [matrixRef.current] becomes the content that the shared
    value [matrix] has at that time ([undefined] without a [matrix]).  It
    runs between renders, after the first render at the earliest. *)
Definition reaction (value : option Matrix4) (s : AxisState) : AxisState :=
  {| next := next s;
     memo_xTicksNormalized := memo_xTicksNormalized s;
     matrixRef := value;
     memo_xScale := memo_xScale s;
     memo_xAxisNodes := memo_xAxisNodes s |}.

Definition mount : Tree AxisState AxleState :=
  {| hooks := mount_axis; children := [] |}.

Definition render : Axis.Props -> Tree AxisState AxleState ->
    list Drawn * Tree AxisState AxleState :=
  render_tree XAxis XAxle mount_axle.

Definition react (value : option Matrix4) (t : Tree AxisState AxleState)
    : Tree AxisState AxleState :=
  {| hooks := reaction value (hooks t); children := children t |}.

(** The states of the container's hooks that renders and reactions can lead
    to, the x scale of every render being an object of the enclosing
    chart. *)
Inductive reachable : AxisState -> Prop :=
| reach_mount : reachable mount_axis
| reach_render (p : Axis.Props) (s : AxisState) :
    is_ext (ref (Axis.xScale p)) ->
    reachable s -> reachable (snd (XAxis p s))
| reach_reaction (value : option Matrix4) (s : AxisState) :
    reachable s -> reachable (reaction value s).

(** The tick list of a render, and the transform made of a matrix. *)
Definition ticks_of (tickValues : option (Obj (list number)))
    (tickCount : number) (xScaleProp : Obj Scale) : list number :=
  match tickValues with
  | Some tickValues => downsampleTicks (deref tickValues) tickCount
  | None => ticks xScaleProp tickCount
  end.

Definition as_zoom (m : Matrix4) : ZoomTransform :=
  {| zoom_k := m0 m; zoom_x := m3 m; zoom_y := m7 m |}.

(** [x] is the scale [xScaleProp] or a rescaling of it made by the axis. *)
Definition from_scale (xScaleProp x : Obj Scale) : Prop :=
  x = xScaleProp
  \/ (is_loc (ref x)
      /\ exists m, deref x = rescaleX (as_zoom m) (deref xScaleProp)).

(** The objects that the hooks remember are the objects of the render
    [p] wherever they have the same reference: the enclosing chart does not
    change an object in place. *)
Definition coherent (s : AxisState) (p : Axis.Props) : Prop :=
  is_ext (ref (Axis.xScale p))
  /\ (forall tv tc xs v,
        memo_xTicksNormalized s = Some ((tv, tc, xs), v) ->
        agree xs (Axis.xScale p)
        /\ (forall a b, tv = Some a -> Axis.tickValues p = Some b ->
                        agree a b))
  /\ (forall xs xt v,
        memo_xScale s = Some ((xs, xt), v) -> agree xs (Axis.xScale p))
  /\ (forall d nodes,
        memo_xAxisNodes s = Some (d, nodes) ->
        agree (d_xScale d) (Axis.xScale p)).

(** What the three cells hold in a reachable state. *)
Definition ticks_ok (s : AxisState) : Prop :=
  forall tv tc xs v,
    memo_xTicksNormalized s = Some ((tv, tc, xs), v) ->
    is_loc (ref v) /\ older (next s) (ref v) /\ deref v = ticks_of tv tc xs.

Definition scale_ok (s : AxisState) : Prop :=
  forall xs xt v,
    memo_xScale s = Some ((xs, xt), v) ->
    is_ext (ref xs) /\ older (next s) (ref v) /\ from_scale xs v.

Definition nodes_ok (s : AxisState) : Prop :=
  forall d nodes,
    memo_xAxisNodes s = Some (d, nodes) ->
    map Axle.tick nodes = deref (d_xTicksNormalized d)
    /\ Forall (fun e => Axle.xScale e = d_xScale d) nodes
    /\ older (next s) (ref (d_xTicksNormalized d))
    /\ older (next s) (ref (d_xScale d))
    /\ (forall d1 v1,
          memo_xTicksNormalized s = Some (d1, v1) ->
          ref (d_xTicksNormalized d) = ref v1 -> d_xTicksNormalized d = v1)
    /\ (forall d2 v2,
          memo_xScale s = Some (d2, v2) -> is_loc (ref v2) ->
          ref (d_xScale d) = ref v2 -> d_xScale d = v2).

Definition axis_ok (s : AxisState) : Prop :=
  ticks_ok s /\ scale_ok s /\ nodes_ok s.

End Component.
End Part000.

(** * A concrete chart

    A linear x scale from the domain [0, 10] to the pixels [0, 100], a y
    scale from [0, 50] to the pixels [200, 0], a font whose glyphs are all
    6 pixels wide, and one choice of the imports: [rescaleX] as d3 has it on
    these scales, integers printed in decimal, and stand-ins for the two
    helpers of [utils] (the first [tickCount] tick values; the angle over
    90 degrees). *)

Module Example.

(** A d3 linear scale [v |-> a * v + b] with the given ticks. *)
Definition linear (a b : number) (tks dom : list number) : Scale :=
  {| scale_fn := fun v => a * v + b;
     scale_ticks := fun _ => tks;
     scale_domain := dom |}.

(** On a linear scale, [rescaleX] of the transform [(k, x, y)] composes the
    scale with [r |-> k * r + x]; for the transforms used here, which keep
    the origin, the ticks and the domain are the old ones over [k]. *)
#[export] Instance imports : Imports :=
  {| downsampleTicks := fun tickValues tickCount =>
       firstn (Z.to_nat (Qnum tickCount)) tickValues;
     getOffsetFromAngle := fun degrees => degrees / int 90;
     hairlineWidth := int 1;
     rescaleX := fun z s =>
       {| scale_fn := fun v => zoom_k z * scale_fn s v + zoom_x z;
          scale_ticks := fun c => map (fun t => t / zoom_k z) (scale_ticks s c);
          scale_domain := map (fun t => t / zoom_k z) (scale_domain s) |};
     Number_toString := fun n =>
       (NilZero.string_of_int (Z.to_int (Qnum n))
        ++ (if Pos.eqb (Qden n) 1 then ""
            else "/" ++ NilZero.string_of_uint (Pos.to_uint (Qden n))))%string |}.

Definition x_scale : Obj Scale :=
  mkObj (Ext 1)
    (linear (int 10) 0 [int 0; int 2; int 4; int 6; int 8; int 10]
            [int 0; int 10]).

Definition y_scale : Obj Scale :=
  mkObj (Ext 2) (linear (- int 4) (int 200) [] [int 0; int 50]).

Definition font : Obj SkFont :=
  mkObj (Ext 3)
    {| getSize := int 12;
       getGlyphIDs := fun s => map (fun _ => O) (list_ascii_of_string s);
       getGlyphWidths := Some (map (fun _ => int 6)) |}.

Definition bounds : Obj ChartBounds :=
  mkObj (Ext 4)
    {| b_left := int 0; b_right := int 100;
       b_top := int 0; b_bottom := int 200 |}.

Definition rest : Rest.Props :=
  {| Rest.axisSide := None;
     Rest.yAxisSide := None;
     Rest.labelPosition := None;
     Rest.labelRotate := None;
     Rest.labelOffset := None;
     Rest.labelColor := None;
     Rest.lineWidth := None;
     Rest.lineColor := None;
     Rest.formatXLabel := None;
     Rest.ix := None;
     Rest.isNumericalData := true;
     Rest.linePathEffect := None;
     Rest.chartBounds := bounds |}.

(** The axis of the chart, with the tick values 0 and 10 given. *)
Definition props : Axis.Props :=
  {| Axis.xScale := x_scale;
     Axis.yScale := y_scale;
     Axis.tickCount := None;
     Axis.tickValues := Some (mkObj (Ext 5) [int 0; int 10]);
     Axis.font := Some font;
     Axis.enableRescaling := false;
     Axis.zoom := None;
     Axis.matrix := Some (Ext 6);
     Axis.rest := rest |}.

(** The leaf of the tick 0, as the container builds it. *)
Definition leaf : Axle.Props := Lib.element props x_scale (int 0).

(** The same axis with a tick at 12, which the x scale sends to the pixel
    120, to the right of the chart. *)
Definition props_outside : Axis.Props :=
  {| Axis.xScale := x_scale;
     Axis.yScale := y_scale;
     Axis.tickCount := None;
     Axis.tickValues := Some (mkObj (Ext 7) [int 0; int 12]);
     Axis.font := Some font;
     Axis.enableRescaling := false;
     Axis.zoom := None;
     Axis.matrix := Some (Ext 6);
     Axis.rest := rest |}.

Definition leaf_outside : Axle.Props := Lib.element props x_scale (int 12).

(** A leaf of a chart whose x values are names: the tick 5 is past the end
    of the two names. *)
Definition leaf_names : Axle.Props :=
  {| Axle.xScale := x_scale;
     Axle.yScale := y_scale;
     Axle.tick := int 5;
     Axle.y1 := int 0;
     Axle.y2 := int 50;
     Axle.matrix := None;
     Axle.font := Some font;
     Axle.fontSize := int 12;
     Axle.rest :=
       {| Rest.axisSide := Some Top;
          Rest.yAxisSide := None;
          Rest.labelPosition := Some Inset;
          Rest.labelRotate := Some (int 45);
          Rest.labelOffset := None;
          Rest.labelColor := None;
          Rest.lineWidth := None;
          Rest.lineColor := None;
          Rest.formatXLabel := None;
          Rest.ix := Some (mkObj (Ext 8) [VString "a"; VString "b"]);
          Rest.isNumericalData := false;
          Rest.linePathEffect := None;
          Rest.chartBounds := bounds |} |}.

(** A zoom by two. *)
Definition zoom2 : ZoomTransform :=
  {| zoom_k := int 2; zoom_x := 0; zoom_y := 0 |}.

(** The axis without tick values, and zoomed by two, without and with
    [enableRescaling]. *)
Definition props_auto : Axis.Props :=
  {| Axis.xScale := x_scale;
     Axis.yScale := y_scale;
     Axis.tickCount := None;
     Axis.tickValues := None;
     Axis.font := Some font;
     Axis.enableRescaling := false;
     Axis.zoom := None;
     Axis.matrix := Some (Ext 6);
     Axis.rest := rest |}.

Definition props_zoom : Axis.Props := set_zoom (Some zoom2) false props_auto.
Definition props_rescaling : Axis.Props :=
  set_zoom (Some zoom2) true props_auto.

(** The axis with ticks at 0 and 4, on the x scale of the chart and on an
    x scale twice as steep. *)
Definition props_04 : Axis.Props :=
  {| Axis.xScale := x_scale;
     Axis.yScale := y_scale;
     Axis.tickCount := None;
     Axis.tickValues := Some (mkObj (Ext 9) [int 0; int 4]);
     Axis.font := Some font;
     Axis.enableRescaling := false;
     Axis.zoom := None;
     Axis.matrix := Some (Ext 6);
     Axis.rest := rest |}.

Definition x_scale_steep : Obj Scale :=
  mkObj (Ext 10)
    (linear (int 20) 0 [int 0; int 1; int 2; int 3; int 4; int 5]
            [int 0; int 5]).

Definition props_04_steep : Axis.Props :=
  {| Axis.xScale := x_scale_steep;
     Axis.yScale := y_scale;
     Axis.tickCount := None;
     Axis.tickValues := Some (mkObj (Ext 9) [int 0; int 4]);
     Axis.font := Some font;
     Axis.enableRescaling := false;
     Axis.zoom := None;
     Axis.matrix := Some (Ext 6);
     Axis.rest := rest |}.

(** The axis of the chart on a canvas half as high again: the y scale is
    another object with the same domain. *)
Definition y_scale_tall : Obj Scale :=
  mkObj (Ext 11) (linear (- int 6) (int 300) [] [int 0; int 50]).

Definition props_tall : Axis.Props :=
  {| Axis.xScale := x_scale;
     Axis.yScale := y_scale_tall;
     Axis.tickCount := None;
     Axis.tickValues := Some (mkObj (Ext 5) [int 0; int 10]);
     Axis.font := Some font;
     Axis.enableRescaling := false;
     Axis.zoom := None;
     Axis.matrix := Some (Ext 6);
     Axis.rest := rest |}.

Definition matrix2 : Matrix4 :=
  {| m0 := int 2; m1 := 0; m2 := 0; m3 := 0;
     m4 := 0; m5 := int 2; m6 := 0; m7 := 0;
     m8 := 0; m9 := 0; m10 := 1; m11 := 0;
     m12 := 0; m13 := 0; m14 := 0; m15 := 1 |}.

End Example.

(** * The claims' vocabulary *)

Section Vocabulary.
Context {I : Imports}.

(** The guards claimed for a leaf: the gridline is there exactly when the
    line width is positive; a label is there only with a font and a width
    other than zero. *)
Definition guarded {S} (XAxle : Axle.Props -> S -> Drawn * S)
    : Prop :=
  forall (p : Axle.Props) (s : S),
    (gridline (fst (XAxle p s)) <> None <-> 0 < Leaf.lineWidth p)
    /\ (label (fst (XAxle p s)) <> None ->
        Axle.font p <> None /\ Leaf.labelWidth p <> 0)
    /\ (Leaf.labelWidth p = 0 -> label (fst (XAxle p s)) = None).

(** The fit test, in the words of the claim. *)
Definition label_fits (p : Axle.Props) : Prop :=
  (b_left (Leaf.chartBounds p) <= call (Axle.xScale p) (Axle.tick p)
   /\ call (Axle.xScale p) (Axle.tick p) <= b_right (Leaf.chartBounds p))
  /\ match Leaf.yAxisSide p with
     | YLeft => Leaf.labelX p + Leaf.labelWidth p < b_right (Leaf.chartBounds p)
     | YRight => b_left (Leaf.chartBounds p) < Leaf.labelX p
     end.

(** Position of the tick on the canvas. *)
Definition tick_x (p : Axle.Props) : number :=
  call (Axle.xScale p) (Axle.tick p).

(** The baseline of the label in the four placements of claim C5. *)
Definition baseline (p : Axle.Props) : number :=
  match Leaf.axisSide p, Leaf.labelPosition p with
  | Bottom, Outset =>
      b_bottom (Leaf.chartBounds p) + Leaf.labelOffset p + Axle.fontSize p
  | Bottom, Inset => call (Axle.yScale p) (Axle.y2 p) - Leaf.labelOffset p
  | Top, Outset => call (Axle.yScale p) (Axle.y1 p) - Leaf.labelOffset p
  | Top, Inset =>
      call (Axle.yScale p) (Axle.y1 p) + Axle.fontSize p + Leaf.labelOffset p
  end.

(** The origin of the rotation and the offset of claim C6, for a label
    rotated by [r] degrees. *)
Definition rotation_origin (p : Axle.Props) : SkPoint :=
  vec (Leaf.labelX p + Leaf.labelWidth p / int 2)
      match Leaf.axisSide p with
      | Bottom => Leaf.labelY p
      | Top => Leaf.labelY p - Axle.fontSize p / int 4
      end.

Definition offset_magnitude (p : Axle.Props) (r : number) : number :=
  Math_abs (Leaf.labelWidth p / int 2 * getOffsetFromAngle r).

Definition rotation_offset (p : Axle.Props) (r : number) : number :=
  match Leaf.axisSide p, Leaf.labelPosition p with
  | Bottom, Outset | Top, Inset => offset_magnitude p r
  | Bottom, Inset | Top, Outset => - offset_magnitude p r
  end.

(** The widths of the glyphs of the label. *)
Definition glyph_widths (p : Axle.Props) : list number :=
  match Axle.font p with
  | Some f =>
      match getGlyphWidths (deref f) with
      | Some widths => widths (getGlyphIDs (deref f) (Leaf.contentX p))
      | None => []
      end
  | None => []
  end.

(** A number that is an index into an array. *)
Definition valid_index {A} (l : list A) (tick : number) : Prop :=
  exists n : nat, (n < List.length l)%nat /\ tick = int (Z.of_nat n).

(** Claim C6 for a leaf [p] whose label node is [t]. *)
Definition rotation_claim (p : Axle.Props) (t : TextNode) : Prop :=
  (forall r, Leaf.labelRotate p = Some r -> r <> 0 ->
     tn_origin t = Some (rotation_origin p)
     /\ tn_translateY t = rotation_offset p r
     /\ Math_abs (tn_translateY t) = offset_magnitude p r
     /\ 0 <= offset_magnitude p r)
  /\ (Leaf.labelRotate p = None \/ Leaf.labelRotate p = Some 0 ->
      tn_translateY t = 0 /\ tn_origin t = None /\ tn_rotate t = 0).

(** The tick count of a render, and the tick set that claim C2 describes
    when "the x scale" is [x]. *)
Definition tick_count (p : Axis.Props) : number :=
  dflt (Axis.tickCount p) (int 5).

Definition claimed_ticks (x : Scale) (p : Axis.Props) : list number :=
  match Axis.tickValues p with
  | Some tickValues => downsampleTicks (deref tickValues) (tick_count p)
  | None => scale_ticks x (tick_count p)
  end.

(** The x scale whose ticks [XAxis.tsx] takes when no tick values are
    given: the rescaled one under [enableRescaling], the incoming one
    otherwise. *)
Definition ticks_scale (p : Axis.Props) : Scale :=
  match Axis.zoom p with
  | Some zoom =>
      if Axis.enableRescaling p then rescaleX zoom (deref (Axis.xScale p))
      else deref (Axis.xScale p)
  | None => deref (Axis.xScale p)
  end.


(** What a leaf draws when nothing is remembered: both nodes computed from
    the properties of the leaf. *)
Definition fresh_draw (fit : Axle.Props -> bool) (e : Axle.Props) : Drawn :=
  {| gridline :=
       Leaf.line_node e
         (vec (tick_x e) (call (Axle.yScale e) (Axle.y2 e)))
         (vec (tick_x e) (call (Axle.yScale e) (Axle.y1 e)));
     label := Leaf.text_node e (fit e) |}.

(** The coordinates of the end points of the gridline drawn, and the x
    coordinate of the label drawn. *)
Definition gridline_x (d : Drawn) : list Q :=
  match gridline d with
  | Some g => map (fun q => this (px q)) (pn_points g)
  | None => []
  end.

Definition gridline_y (d : Drawn) : list Q :=
  match gridline d with
  | Some g => map (fun q => this (py q)) (pn_points g)
  | None => []
  end.

Definition label_x (d : Drawn) : option Q :=
  match label d with Some t => Some (this (tn_x t)) | None => None end.

(** A statement about the label node of every leaf that draws one. *)
Definition every_label {S} (XAxle : Axle.Props -> S -> Drawn * S)
    (P : Axle.Props -> TextNode -> Prop) : Prop :=
  forall p s t, label (fst (XAxle p s)) = Some t -> P p t.

End Vocabulary.

(** * Further vocabulary: renders one after the other, and the defaults *)

(** [XAxisDefaults], exported by both files. *)
Module Defaults.
Record t : Type :=
  { lineColor : string;
    lineWidth : number;
    tickCount : number;
    labelOffset : number;
    axisSide : AxisSide;
    yAxisSide : YAxisSide;
    labelPosition : LabelPosition;
    formatXLabel : Obj (JsValue -> string);
    labelColor : string;
    labelRotate : number }.
End Defaults.

Section Renders.
Context {I : Imports}.

(** The function [(label) => String(label)] of [XAxisDefaults] is one
    object of the module. *)
Definition XAxisDefaults : Defaults.t :=
  {| Defaults.lineColor := "hsla(0, 0%, 0%, 0.25)"%string;
     Defaults.lineWidth := hairlineWidth;
     Defaults.tickCount := int 5;
     Defaults.labelOffset := int 2;
     Defaults.axisSide := Bottom;
     Defaults.yAxisSide := YLeft;
     Defaults.labelPosition := Outset;
     Defaults.formatXLabel := mkObj (Ext 0) Leaf.String_;
     Defaults.labelColor := "#000000"%string;
     Defaults.labelRotate := int 0 |}.

(** The properties of a leaf in which every property that is absent and
    has an entry in [XAxisDefaults] is given that entry. *)
Definition rest_with_defaults (r : Rest.Props) : Rest.Props :=
  {| Rest.axisSide :=
       Some (dflt (Rest.axisSide r) (Defaults.axisSide XAxisDefaults));
     Rest.yAxisSide :=
       Some (dflt (Rest.yAxisSide r) (Defaults.yAxisSide XAxisDefaults));
     Rest.labelPosition :=
       Some (dflt (Rest.labelPosition r)
               (Defaults.labelPosition XAxisDefaults));
     Rest.labelRotate :=
       Some (dflt (Rest.labelRotate r) (Defaults.labelRotate XAxisDefaults));
     Rest.labelOffset :=
       Some (dflt (Rest.labelOffset r) (Defaults.labelOffset XAxisDefaults));
     Rest.labelColor :=
       Some (dflt (Rest.labelColor r) (Defaults.labelColor XAxisDefaults));
     Rest.lineWidth :=
       Some (dflt (Rest.lineWidth r) (Defaults.lineWidth XAxisDefaults));
     Rest.lineColor :=
       Some (dflt (Rest.lineColor r) (Defaults.lineColor XAxisDefaults));
     Rest.formatXLabel :=
       Some (dflt (Rest.formatXLabel r)
               (Defaults.formatXLabel XAxisDefaults));
     Rest.ix := Rest.ix r;
     Rest.isNumericalData := Rest.isNumericalData r;
     Rest.linePathEffect := Rest.linePathEffect r;
     Rest.chartBounds := Rest.chartBounds r |}.

Definition leaf_with_defaults (e : Axle.Props) : Axle.Props :=
  {| Axle.xScale := Axle.xScale e;
     Axle.yScale := Axle.yScale e;
     Axle.tick := Axle.tick e;
     Axle.y1 := Axle.y1 e;
     Axle.y2 := Axle.y2 e;
     Axle.matrix := Axle.matrix e;
     Axle.font := Axle.font e;
     Axle.fontSize := Axle.fontSize e;
     Axle.rest := rest_with_defaults (Axle.rest e) |}.

(** The states of the hooks of one leaf after any renders of it. *)
Inductive Lib_axle_reachable : Lib.AxleState -> Prop :=
| Lib_axle_mount : Lib_axle_reachable Lib.mount_axle
| Lib_axle_render (e : Axle.Props) (s : Lib.AxleState) :
    Lib_axle_reachable s -> Lib_axle_reachable (snd (Lib.XAxle e s)).

Inductive Part000_axle_reachable : Part000.AxleState -> Prop :=
| Part000_axle_mount : Part000_axle_reachable Part000.mount_axle
| Part000_axle_render (e : Axle.Props) (s : Part000.AxleState) :
    Part000_axle_reachable s ->
    Part000_axle_reachable (snd (Part000.XAxle e s)).

(** The state of a leaf of [XAxis.tsx] after the renders [es], in order. *)
Definition Lib_axle_renders (s : Lib.AxleState) (es : list Axle.Props)
    : Lib.AxleState :=
  fold_left (fun s e => snd (Lib.XAxle e s)) es s.

(** The end points of the gridline drawn, if one is drawn. *)
Definition gridline_points (d : Drawn) : option (list SkPoint) :=
  match gridline d with Some g => Some (pn_points g) | None => None end.

(** In [part_000], the properties [p'] leave every dependency of the three
    memoised values as [p] has it: [tickValues], [tickCount] and the x
    scale, and the other fifteen dependencies of [xAxisNodes]. *)
Definition Part000_same_deps (p p' : Axis.Props) : Prop :=
  Part000.same_TicksDeps
    (Axis.tickValues p, Part000.tickCount p, Axis.xScale p)
    (Axis.tickValues p', Part000.tickCount p', Axis.xScale p') = true
  /\ forall t x,
       Part000.same_NodesDeps (Part000.nodes_deps p t x)
         (Part000.nodes_deps p' t x) = true.





End Renders.

(** The width and the anchor of the label in binary64, the numbers of the
    program. *)
Module Double.
Import PrimFloat.
Local Open Scope float_scope.

(** [font?.getGlyphWidths?.(font.getGlyphIDs(contentX))
       .reduce((sum, value) => sum + value, 0) ?? 0], for the widths that
    the font gives, if it gives any. *)
Definition labelWidth (widths : option (list float)) : float :=
  match widths with
  | Some ws => fold_left (fun sum value => sum + value) ws 0
  | None => 0
  end.

(** [const labelX = xScale(tick) - (labelWidth ?? 0) / 2] *)
Definition labelX (xScale : float -> float) (tick labelWidth : float)
    : float :=
  xScale tick - labelWidth / 2.

(** The centre that claim C7 computes back: [labelX + labelWidth / 2]. *)
Definition centre (labelX labelWidth : float) : float :=
  labelX + labelWidth / 2.

(** A linear scale that sends the tick 1 to a third of a pixel, and a label
    of one glyph, 6 wide. *)
Definition x_scale (v : float) : float := v / 3.
Definition tick : float := 1.
Definition widths : option (list float) := Some (6 :: nil).

End Double.

(** More of the example chart: the axis of the chart with rotated labels,
    a dashed line and the taller y scale, whose [xAxisNodes] depend on the
    same objects and numbers as those of [Example.props]. *)
Module Example2.

Definition rest_rotated : Rest.Props :=
  {| Rest.axisSide := None;
     Rest.yAxisSide := None;
     Rest.labelPosition := None;
     Rest.labelRotate := Some (int 45);
     Rest.labelOffset := None;
     Rest.labelColor := None;
     Rest.lineWidth := None;
     Rest.lineColor := None;
     Rest.formatXLabel := None;
     Rest.ix := None;
     Rest.isNumericalData := true;
     Rest.linePathEffect := Some 1%nat;
     Rest.chartBounds := Example.bounds |}.

Definition props_rotated : Axis.Props :=
  {| Axis.xScale := Example.x_scale;
     Axis.yScale := Example.y_scale_tall;
     Axis.tickCount := Some (int 5);
     Axis.tickValues := Some (mkObj (Ext 5) [int 0; int 10]);
     Axis.font := Some Example.font;
     Axis.enableRescaling := true;
     Axis.zoom := Some Example.zoom2;
     Axis.matrix := Some (Ext 6);
     Axis.rest := rest_rotated |}.

(** The leaves of the tick 4 on the two x scales. *)
Definition leaf_4 : Axle.Props :=
  Lib.element Example.props_04 Example.x_scale (int 4).
Definition leaf_4_steep : Axle.Props :=
  Lib.element Example.props_04_steep Example.x_scale_steep (int 4).

End Example2.

(** * Properties *)

(** ** Numbers and comparisons *)

Lemma Qcleb_le (a b : number) : Qcleb a b = true <-> a <= b.
Proof. unfold Qcleb, Qcle. apply Qle_bool_iff. Qed.

Lemma Qcltb_lt (a b : number) : Qcltb a b = true <-> a < b.
Proof.
  unfold Qcltb, Qclt. rewrite negb_true_iff, <- not_true_iff_false, Qle_bool_iff.
  split; [apply Qnot_le_lt | apply Qlt_not_le].
Qed.

Lemma Qceqb_eq (a b : number) : Qceqb a b = true <-> a = b.
Proof.
  unfold Qceqb. rewrite Qeq_bool_iff. split.
  - apply Qc_is_canon.
  - intros ->. reflexivity.
Qed.

Lemma Qceqb_refl (a : number) : Qceqb a a = true.
Proof. now apply Qceqb_eq. Qed.

Lemma truthy_neq (a : number) : truthy a = true <-> a <> 0.
Proof.
  unfold truthy. rewrite negb_true_iff, <- not_true_iff_false, Qceqb_eq.
  reflexivity.
Qed.

Lemma truthy_zero : truthy 0 = false.
Proof. reflexivity. Qed.

Lemma this_int (z : Z) : this (int z) = inject_Z z.
Proof.
  unfold int, Q2Qc, inject_Z. cbn [this]. apply Qred_identity.
  cbn. apply Z.gcd_1_r.
Qed.

Lemma SkPoint_ext (a b : SkPoint) : px a = px b -> py a = py b -> a = b.
Proof. destruct a, b. cbn. now intros -> ->. Qed.

Lemma Ref_eqb_eq (r s : Ref) : Ref_eqb r s = true <-> r = s.
Proof.
  destruct r, s; cbn; rewrite ?Nat.eqb_eq; split; try congruence;
    try discriminate.
Qed.

(** ** What a leaf draws *)

Lemma Lib_XAxle_label `{Imports} (p : Axle.Props) (s : Lib.AxleState) :
  label (fst (Lib.XAxle p s)) = Leaf.text_node p (Lib.canFitLabelContent p).
Proof.
  unfold Lib.XAxle.
  destruct (useMemo _ (Lib.memo_p1 s) _ _), (useMemo _ (Lib.memo_p2 s) _ _).
  reflexivity.
Qed.

Lemma Part000_XAxle_label `{Imports} (p : Axle.Props) (s : Part000.AxleState) :
  label (fst (Part000.XAxle p s)) = Leaf.text_node p true.
Proof.
  unfold Part000.XAxle.
  destruct (useMemo _ (Part000.memo_p1 s) _ _),
    (useMemo _ (Part000.memo_p2 s) _ _).
  reflexivity.
Qed.

Lemma Lib_XAxle_gridline `{Imports} (p : Axle.Props) (s : Lib.AxleState) :
  gridline (fst (Lib.XAxle p s)) =
  Leaf.line_node p
    (fst (useMemo Qceqb (Lib.memo_p1 s) (Leaf.calc_p1 p) (Axle.tick p)))
    (fst (useMemo Qceqb (Lib.memo_p2 s) (Leaf.calc_p2 p) (Axle.tick p))).
Proof.
  unfold Lib.XAxle.
  destruct (useMemo _ (Lib.memo_p1 s) _ _), (useMemo _ (Lib.memo_p2 s) _ _).
  reflexivity.
Qed.

Lemma Part000_XAxle_gridline `{Imports} (p : Axle.Props)
    (s : Part000.AxleState) :
  gridline (fst (Part000.XAxle p s)) =
  Leaf.line_node p
    (fst (useMemo Part000.same_PointDeps (Part000.memo_p1 s) (Leaf.calc_p1 p)
            (Axle.tick p, Axle.xScale p, Axle.y2 p, Axle.yScale p)))
    (fst (useMemo Part000.same_PointDeps (Part000.memo_p2 s) (Leaf.calc_p2 p)
            (Axle.tick p, Axle.xScale p, Axle.y1 p, Axle.yScale p))).
Proof.
  unfold Part000.XAxle.
  destruct (useMemo _ (Part000.memo_p1 s) _ _),
    (useMemo _ (Part000.memo_p2 s) _ _).
  reflexivity.
Qed.

(** The label node, when there is one, carries the values computed for the
    tick; there is one exactly when the three conditions of the source
    hold. *)
Lemma text_node_Some `{Imports} (p : Axle.Props) (fit : bool) (t : TextNode) :
  Leaf.text_node p fit = Some t ->
  exists f,
    Axle.font p = Some f /\ Leaf.labelWidth p <> 0 /\ fit = true /\
    t = {| tn_translateY := Leaf.rotateOffset p;
           tn_rotate := Math_PI / int 180 * dflt (Leaf.labelRotate p) 0;
           tn_origin := Leaf.origin p;
           tn_color := Leaf.labelColor p;
           tn_text := Leaf.contentX p;
           tn_font := f;
           tn_y := Leaf.labelY p;
           tn_x := Leaf.labelX p;
           tn_matrix := Axle.matrix p |}.
Proof.
  unfold Leaf.text_node. destruct (Axle.font p) as [f|]; [|discriminate].
  destruct (truthy (Leaf.labelWidth p)) eqn:Hw; [|discriminate].
  destruct fit; [|discriminate]. cbn. intros [= <-].
  exists f. repeat split. now apply truthy_neq.
Qed.

Lemma text_node_None `{Imports} (p : Axle.Props) (fit : bool) :
  Leaf.text_node p fit = None <->
  Axle.font p = None \/ Leaf.labelWidth p = 0 \/ fit = false.
Proof.
  unfold Leaf.text_node. destruct (Axle.font p) as [f|].
  - destruct (truthy (Leaf.labelWidth p)) eqn:Hw.
    + apply truthy_neq in Hw. destruct fit; cbn; split; try discriminate; auto.
      intros [?|[?|?]]; try discriminate; contradiction.
    + cbn. split; auto. intros _. right. left.
      destruct (Qc_eq_dec (Leaf.labelWidth p) 0) as [E|N]; [exact E|].
      apply truthy_neq in N. congruence.
  - split; auto.
Qed.

(** ** C9: the guards of the two nodes *)

Lemma line_node_Some `{Imports} (p : Axle.Props) (p1 p2 : SkPoint) :
  Leaf.line_node p p1 p2 <> None <-> 0 < Leaf.lineWidth p.
Proof.
  unfold Leaf.line_node. rewrite <- Qcltb_lt.
  destruct (Qcltb 0 (Leaf.lineWidth p)); split; congruence.
Qed.

Lemma text_node_guard `{Imports} (p : Axle.Props) (fit : bool) :
  (Leaf.text_node p fit <> None ->
   Axle.font p <> None /\ Leaf.labelWidth p <> 0)
  /\ (Leaf.labelWidth p = 0 -> Leaf.text_node p fit = None).
Proof.
  split.
  - destruct (Leaf.text_node p fit) as [t|] eqn:E; [|congruence].
    intros _. apply text_node_Some in E as (f & Hf & Hw & _).
    split; congruence.
  - intros Hw. apply text_node_None. auto.
Qed.

(** C9. In both versions, for every tick, the gridline is emitted if and
    only if [lineWidth > 0], and the label is emitted only when a font is
    provided and the measured width is not zero: a label of width 0 is never
    drawn. *)
Theorem C9_rendering_guards :
  forall I : Imports, guarded Lib.XAxle /\ guarded Part000.XAxle.
Proof.
  intros I. split; intros p s.
  - rewrite Lib_XAxle_gridline, Lib_XAxle_label.
    split; [apply line_node_Some | apply text_node_guard].
  - rewrite Part000_XAxle_gridline, Part000_XAxle_label.
    split; [apply line_node_Some | apply text_node_guard].
Qed.

Lemma C9_rendering_guards_witness :
  0 < Leaf.lineWidth (I := Example.imports) Example.leaf
  /\ gridline (fst (Lib.XAxle (I := Example.imports) Example.leaf
                               Lib.mount_axle)) <> None
  /\ Axle.font Example.leaf <> None.
Proof.
  destruct (C9_rendering_guards Example.imports) as [HL _].
  destruct (HL Example.leaf Lib.mount_axle) as (Hg & Hl & _).
  split; [reflexivity|]. split.
  - apply Hg. reflexivity.
  - apply Hl. vm_compute. discriminate.
Defined.

(** ** C1: the label fit test *)

Lemma canFitLabelContent_fits `{Imports} (p : Axle.Props) :
  Lib.canFitLabelContent p = true <-> label_fits p.
Proof.
  unfold Lib.canFitLabelContent, label_fits.
  rewrite !andb_true_iff, !Qcleb_le.
  destruct (Leaf.yAxisSide p); rewrite Qcltb_lt; reflexivity.
Qed.

(** C1, as the code has it. In [XAxis.tsx] a label is drawn only if it
    passes the fit test, and a label that fails it is not drawn. In
    [part_000] the test is switched off: a label is drawn exactly when there
    is a font and the width is not zero, wherever the tick lies. *)
Theorem C1_label_fit :
  forall (I : Imports) (p : Axle.Props),
    (forall s, label (fst (Lib.XAxle p s)) <> None -> label_fits p)
    /\ (forall s, ~ label_fits p -> label (fst (Lib.XAxle p s)) = None)
    /\ (forall s, label (fst (Part000.XAxle p s)) <> None <->
                  Axle.font p <> None /\ Leaf.labelWidth p <> 0).
Proof.
  intros I p. split; [|split]; intros s.
  - rewrite Lib_XAxle_label.
    destruct (Leaf.text_node _ _) as [t|] eqn:E; [|congruence].
    intros _. apply text_node_Some in E as (f & _ & _ & Hfit & _).
    now apply canFitLabelContent_fits.
  - rewrite Lib_XAxle_label, <- canFitLabelContent_fits. intros Hfit.
    apply text_node_None. right. right.
    now destruct (Lib.canFitLabelContent p).
  - rewrite Part000_XAxle_label. split.
    + apply text_node_guard.
    + intros [Hf Hw] E. apply text_node_None in E as [?|[?|?]];
        congruence.
Qed.

Lemma C1_label_fit_witness :
  label_fits (I := Example.imports) Example.leaf
  /\ label (fst (Part000.XAxle (I := Example.imports) Example.leaf
                                Part000.mount_axle)) <> None.
Proof.
  destruct (C1_label_fit Example.imports Example.leaf) as (HL & _ & HP).
  split.
  - apply (HL Lib.mount_axle). vm_compute. discriminate.
  - apply HP. split; vm_compute; discriminate.
Defined.

(** The claim fails in [part_000]: on the first render of the example chart
    with ticks at 0 and 12, the label of the tick 12 is drawn, at x = 114,
    although the tick lies at the pixel 120 and the chart ends at 100. *)
Lemma C1_label_fit_counterexample :
  (exists t,
      map label (fst (Part000.render (I := Example.imports)
                        Example.props_outside Part000.mount))
        = [label (fst (Part000.XAxle (I := Example.imports) Example.leaf
                         Part000.mount_axle));
           Some t]
      /\ tn_x t = int 114)
  /\ call (Axle.xScale Example.leaf_outside) (Axle.tick Example.leaf_outside)
     = int 120
  /\ b_right (Leaf.chartBounds Example.leaf_outside) = int 100
  /\ ~ label_fits (I := Example.imports) Example.leaf_outside.
Proof.
  split; [|split; [|split]].
  - eexists. split; [vm_compute; reflexivity|]. apply Qc_is_canon. reflexivity.
  - apply Qc_is_canon. reflexivity.
  - apply Qc_is_canon. reflexivity.
  - intros [[_ H] _]. revert H. vm_compute. intros H. apply H. reflexivity.
Qed.

(** ** C5: the baseline of the label *)

Lemma labelY_baseline `{Imports} (p : Axle.Props) : Leaf.labelY p = baseline p.
Proof.
  unfold Leaf.labelY, baseline.
  destruct (Leaf.axisSide p), (Leaf.labelPosition p); reflexivity.
Qed.

Lemma every_label_Lib `{Imports} (P : Axle.Props -> TextNode -> Prop) :
  (forall p fit t, Leaf.text_node p fit = Some t -> P p t) ->
  every_label Lib.XAxle P.
Proof. intros HP p s t. rewrite Lib_XAxle_label. apply HP. Qed.

Lemma every_label_Part000 `{Imports} (P : Axle.Props -> TextNode -> Prop) :
  (forall p fit t, Leaf.text_node p fit = Some t -> P p t) ->
  every_label Part000.XAxle P.
Proof. intros HP p s t. rewrite Part000_XAxle_label. apply HP. Qed.

(** C5. In both versions the y coordinate of every label drawn is the
    baseline of its placement: bottom and outset, [chartBounds.bottom +
    labelOffset + fontSize]; bottom and inset, [yScale(y2) - labelOffset];
    top and outset, [yScale(y1) - labelOffset]; top and inset, [yScale(y1) +
    fontSize + labelOffset]. *)
Theorem C5_label_baseline :
  forall I : Imports,
    every_label Lib.XAxle (fun p t => tn_y t = baseline p)
    /\ every_label Part000.XAxle (fun p t => tn_y t = baseline p).
Proof.
  intros I.
  assert (HP : forall p fit t,
             Leaf.text_node p fit = Some t -> tn_y t = baseline p).
  { intros p fit t E. apply text_node_Some in E as (f & _ & _ & _ & ->).
    apply labelY_baseline. }
  split; [apply every_label_Lib | apply every_label_Part000]; exact HP.
Qed.

Lemma C5_label_baseline_witness :
  exists t,
    label (fst (Lib.XAxle (I := Example.imports) Example.leaf Lib.mount_axle))
      = Some t
    /\ tn_y t = baseline Example.leaf
    /\ tn_y t = int 214.
Proof.
  eexists. split; [vm_compute; reflexivity|]. split.
  - apply (proj1 (C5_label_baseline Example.imports) Example.leaf
             Lib.mount_axle).
    vm_compute. reflexivity.
  - apply Qc_is_canon. reflexivity.
Defined.

(** ** C6: the rotation of the label *)

Lemma offset_magnitude_nonneg `{Imports} (p : Axle.Props) (r : number) :
  0 <= offset_magnitude p r.
Proof. apply Qcabs_nonneg. Qed.

Lemma Math_abs_rotation_offset `{Imports} (p : Axle.Props) (r : number) :
  Math_abs (rotation_offset p r) = offset_magnitude p r.
Proof.
  assert (E : Math_abs (offset_magnitude p r) = offset_magnitude p r)
    by apply Qcabs_pos, offset_magnitude_nonneg.
  unfold rotation_offset, Math_abs in *.
  destruct (Leaf.axisSide p), (Leaf.labelPosition p);
    rewrite ?Qcabs_opp; exact E.
Qed.

Lemma rotation_rotated `{Imports} (p : Axle.Props) (r : number) :
  Leaf.labelRotate p = Some r -> r <> 0 ->
  Leaf.rotation p = (Some (rotation_origin p), rotation_offset p r).
Proof.
  intros Hr Hn. unfold Leaf.rotation. rewrite Hr.
  apply truthy_neq in Hn. rewrite Hn. cbn [negb].
  unfold rotation_origin, rotation_offset, offset_magnitude.
  destruct (Leaf.axisSide p), (Leaf.labelPosition p); reflexivity.
Qed.

Lemma rotation_unrotated `{Imports} (p : Axle.Props) :
  Leaf.labelRotate p = None \/ Leaf.labelRotate p = Some 0 ->
  Leaf.rotation p = (None, 0).
Proof.
  unfold Leaf.rotation. intros [-> | ->]; [reflexivity|].
  rewrite truthy_zero. reflexivity.
Qed.

(** C6. In both versions, for every label drawn: when [labelRotate] is
    given and not zero, the origin of the rotation is the horizontal centre
    of the label, at the height [labelY] on a bottom axis and [labelY -
    fontSize / 4] on a top axis, and the vertical offset is
    [|(labelWidth / 2) * getOffsetFromAngle(labelRotate)|], positive for
    (bottom, outset) and (top, inset) and negated for (bottom, inset) and
    (top, outset); when [labelRotate] is absent or zero the offset is 0, the
    origin is undefined and the angle of the rotation is 0. *)
Theorem C6_label_rotation :
  forall I : Imports,
    every_label Lib.XAxle rotation_claim
    /\ every_label Part000.XAxle rotation_claim.
Proof.
  intros I.
  assert (HP : forall p fit t,
             Leaf.text_node p fit = Some t -> rotation_claim p t).
  { intros p fit t E. apply text_node_Some in E as (f & _ & _ & _ & ->).
    unfold rotation_claim, Leaf.origin, Leaf.rotateOffset. cbn. split.
    - intros r Hr Hn. rewrite (rotation_rotated p Hr Hn). cbn.
      repeat split.
      + apply Math_abs_rotation_offset.
      + apply offset_magnitude_nonneg.
    - intros Hz. rewrite (rotation_unrotated p Hz). cbn.
      repeat split. destruct Hz as [-> | ->]; apply Qcmult_0_r. }
  split; [apply every_label_Lib | apply every_label_Part000]; exact HP.
Qed.

Lemma C6_label_rotation_witness :
  exists t,
    label (fst (Part000.XAxle (I := Example.imports) Example.leaf_names
                  Part000.mount_axle)) = Some t
    /\ tn_origin t = Some (vec (int 50) (int 211))
    /\ tn_translateY t = int 27 / int 2.
Proof.
  destruct (label (fst (Part000.XAxle (I := Example.imports)
                          Example.leaf_names Part000.mount_axle)))
    as [t|] eqn:E; [|vm_compute in E; discriminate E].
  exists t. split; [reflexivity|].
  destruct (proj2 (C6_label_rotation Example.imports) _ _ _ E) as [Hr _].
  destruct (Hr (int 45) eq_refl) as (Ho & Ht & _).
  - intros N. apply (f_equal this) in N. discriminate N.
  - rewrite Ho, Ht. split.
    + apply f_equal. apply SkPoint_ext; apply Qc_is_canon; reflexivity.
    + apply Qc_is_canon. reflexivity.
Defined.

(** ** C7: the width and the anchor of the label *)

Lemma labelWidth_fold `{Imports} (p : Axle.Props) :
  Leaf.labelWidth p
  = fold_left (fun sum value => sum + value) (glyph_widths p) 0.
Proof.
  unfold Leaf.labelWidth, glyph_widths.
  destruct (Axle.font p) as [f|]; [|reflexivity].
  now destruct (getGlyphWidths (deref f)).
Qed.

Lemma labelX_centred `{Imports} (p : Axle.Props) :
  Leaf.labelX p + Leaf.labelWidth p / int 2 = tick_x p.
Proof. unfold Leaf.labelX, tick_x. ring. Qed.

(** C7, as the code has it. For every tick, the width of the label is the
    sum of the widths of the glyphs of the formatted label, added one after
    the other from 0, and 0 without a font; the anchor is [labelX =
    xScale(tick) - labelWidth / 2]; and in both versions every label drawn
    is drawn at [labelX].  In exact arithmetic, the arithmetic of this
    model, [labelX + labelWidth / 2 = xScale(tick)]. *)
Theorem C7_label_width_anchor :
  forall (I : Imports) (p : Axle.Props),
    Leaf.labelWidth p
    = fold_left (fun sum value => sum + value) (glyph_widths p) 0
    /\ (Axle.font p = None -> Leaf.labelWidth p = 0)
    /\ Leaf.labelX p = tick_x p - Leaf.labelWidth p / int 2
    /\ every_label Lib.XAxle (fun p t => tn_x t = Leaf.labelX p)
    /\ every_label Part000.XAxle (fun p t => tn_x t = Leaf.labelX p)
    /\ Leaf.labelX p + Leaf.labelWidth p / int 2 = tick_x p.
Proof.
  intros I p.
  assert (HP : forall p fit t,
             Leaf.text_node p fit = Some t -> tn_x t = Leaf.labelX p).
  { intros q fit t E. now apply text_node_Some in E as (f & _ & _ & _ & ->). }
  repeat split.
  - apply labelWidth_fold.
  - unfold Leaf.labelWidth. now intros ->.
  - now apply every_label_Lib.
  - now apply every_label_Part000.
  - apply labelX_centred.
Qed.

Lemma C7_label_width_anchor_witness :
  Leaf.labelWidth (I := Example.imports)
    (Lib.element Example.props Example.x_scale (int 10))
    = int 12
  /\ Leaf.labelX (I := Example.imports)
       (Lib.element Example.props Example.x_scale
          (int 10)) = int 94
  /\ Leaf.labelWidth (I := Example.imports)
       {| Axle.xScale := Example.x_scale; Axle.yScale := Example.y_scale;
          Axle.tick := int 10; Axle.y1 := 0; Axle.y2 := 0;
          Axle.matrix := None; Axle.font := None; Axle.fontSize := 0;
          Axle.rest := Example.rest |} = 0.
Proof.
  split; [|split].
  - destruct (C7_label_width_anchor Example.imports
                (Lib.element Example.props
                   Example.x_scale (int 10))) as (-> & _).
    apply Qc_is_canon. reflexivity.
  - destruct (C7_label_width_anchor Example.imports
                (Lib.element Example.props
                   Example.x_scale (int 10))) as (_ & _ & -> & _).
    apply Qc_is_canon. reflexivity.
  - apply (C7_label_width_anchor Example.imports). reflexivity.
Defined.

(** The centring equation of the claim fails in the doubles that the code
    computes with.  For a tick at a third of a pixel and a label 6 wide,
    [labelX] is the double nearest to [1/3 - 3], and [labelX + 6 / 2] is
    0.33333333333333348, not the 0.33333333333333331 of [xScale(tick)]. *)
Lemma C7_label_width_anchor_counterexample :
  Double.centre
    (Double.labelX Double.x_scale Double.tick
       (Double.labelWidth Double.widths))
    (Double.labelWidth Double.widths)
  <> Double.x_scale Double.tick.
Proof.
  intros E.
  apply (f_equal
           (fun a => PrimFloat.eqb a (Double.x_scale Double.tick))) in E.
  vm_compute in E. discriminate E.
Qed.

(** ** C10: the value of the label *)

Lemma array_get_int (ix : list JsValue) (n : nat) :
  array_get ix (int (Z.of_nat n)) = nth n ix VUndefined.
Proof.
  unfold array_get, is_index. rewrite this_int. cbn.
  assert (E : (0 <=? Z.of_nat n)%Z = true) by (apply Z.leb_le; lia).
  rewrite E. now rewrite Nat2Z.id.
Qed.

Lemma is_index_int (tick : number) :
  is_index tick = true ->
  tick = int (Z.of_nat (Z.to_nat (Qnum tick))).
Proof.
  unfold is_index. rewrite andb_true_iff, Z.eqb_eq, Z.leb_le.
  intros [Hd Hn]. apply Qc_is_canon. rewrite this_int, Z2Nat.id by exact Hn.
  destruct tick as [[n d] c]. cbn in *. injection Hd as ->. reflexivity.
Qed.

Lemma array_get_invalid (ix : list JsValue) (tick : number) :
  ~ valid_index ix tick -> array_get ix tick = VUndefined.
Proof.
  intros Hv. unfold array_get. destruct (is_index tick) eqn:E; [|reflexivity].
  apply nth_overflow. apply Nat.nlt_ge. intros Hlt. apply Hv.
  exists (Z.to_nat (Qnum tick)). split; [exact Hlt|]. now apply is_index_int.
Qed.

(** C10. When [isNumericalData] is false the value of the label is
    [ix[tick]]: the element at the index when the tick is an index into
    [ix], and [undefined] for every other tick, fractional, negative or past
    the end; the lookup never fails.  The default formatter then makes the
    string "undefined", and that is the text of the label drawn, in both
    versions. *)
Theorem C10_label_value_lookup :
  forall (I : Imports) (p : Axle.Props),
    Rest.isNumericalData (Axle.rest p) = false ->
    (forall n : nat,
        Axle.tick p = int (Z.of_nat n) ->
        Leaf.val p = nth n (Leaf.ix p) VUndefined)
    /\ (~ valid_index (Leaf.ix p) (Axle.tick p) ->
        Leaf.val p = VUndefined
        /\ (Rest.formatXLabel (Axle.rest p) = None ->
            Leaf.contentX p = "undefined"%string
            /\ (forall s t, label (fst (Lib.XAxle p s)) = Some t ->
                            tn_text t = "undefined"%string)
            /\ (forall s t, label (fst (Part000.XAxle p s)) = Some t ->
                            tn_text t = "undefined"%string))).
Proof.
  intros I p Hnum. unfold Leaf.val. rewrite Hnum. split.
  - intros n ->. apply array_get_int.
  - intros Hv. pose proof (array_get_invalid Hv) as E. split; [exact E|].
    intros Hf.
    assert (Hc : Leaf.contentX p = "undefined"%string).
    { unfold Leaf.contentX, Leaf.formatXLabel, Leaf.val.
      now rewrite Hf, Hnum, E. }
    split; [exact Hc|]. split; intros s t.
    + rewrite Lib_XAxle_label. intros Ht.
      now apply text_node_Some in Ht as (f & _ & _ & _ & ->).
    + rewrite Part000_XAxle_label. intros Ht.
      now apply text_node_Some in Ht as (f & _ & _ & _ & ->).
Qed.

Lemma C10_label_value_lookup_witness :
  Leaf.val Example.leaf_names = VUndefined
  /\ exists t,
       label (fst (Lib.XAxle (I := Example.imports) Example.leaf_names
                     Lib.mount_axle)) = Some t
       /\ tn_text t = "undefined"%string.
Proof.
  destruct (C10_label_value_lookup Example.imports Example.leaf_names
              eq_refl) as [_ H].
  destruct H as (Hval & Hu).
  - intros (n & Hlt & E). apply (f_equal this) in E.
    rewrite this_int in E. cbn in Hlt, E.
    destruct n as [|[|n]]; [discriminate E | discriminate E | lia].
  - split; [exact Hval|]. destruct (Hu eq_refl) as (_ & HL & _).
    eexists. split; [vm_compute; reflexivity|].
    eapply HL with (s := Lib.mount_axle). vm_compute. reflexivity.
Defined.

(** ** The hooks of the container in [XAxis.tsx] *)

Lemma Lib_reachable_ok `{Imports} (s : Lib.AxisState) :
  Lib.reachable s -> Lib.axis_ok s.
Proof.
  induction 1 as [|p s _ IH]; intros d nodes.
  - discriminate.
  - unfold Lib.XAxis.
    destruct (useMemo _ (Lib.memo_xAxisNodes s) _ _) as [ns c] eqn:E.
    cbn. intros ->. revert E. unfold useMemo.
    destruct (Lib.memo_xAxisNodes s) as [[d0 a0]|] eqn:Ec.
    + destruct (Lib.same_NodesDeps d0 _).
      * intros [= _ <- <-]. destruct (IH _ _ Ec) as (k & Hk & Hlt).
        exists k. split; [exact Hk | lia].
      * intros [= _ <- _]. exists (S (Lib.next s)). split; [reflexivity | lia].
    + intros [= _ <- _]. exists (S (Lib.next s)). split; [reflexivity | lia].
Qed.

(** The tick list is a new array at every render, so the memoised nodes are
    rebuilt at every render. *)
Lemma Lib_XAxis_nodes `{Imports} (p : Axis.Props) (s : Lib.AxisState) :
  Lib.reachable s ->
  fst (Lib.XAxis p s) =
  map (Lib.element p (Lib.xScale p (Loc (Lib.next s))))
      (Lib.xTicksNormalized p (Lib.xScale p (Loc (Lib.next s)))).
Proof.
  intros Hr. apply Lib_reachable_ok in Hr. unfold Lib.XAxis, useMemo.
  destruct (Lib.memo_xAxisNodes s) as [[d a]|] eqn:Ec; [|reflexivity].
  destruct (Hr _ _ Ec) as (k & Hk & Hlt).
  destruct d as [[[t f] ya] yb]. cbn in Hk. cbn [Lib.same_NodesDeps].
  unfold same_obj. rewrite Hk. cbn [ref Ref_eqb].
  assert (E : Nat.eqb k (S (Lib.next s)) = false) by (apply Nat.eqb_neq; lia).
  rewrite E. reflexivity.
Qed.

(** ** The hooks of the container in [part_000] *)

Lemma useMemo_cases {D A} (same : D -> D -> bool) (cell : Memo D A)
    (calc : unit -> A) (deps : D) :
  let r := useMemo same cell calc deps in
  (exists d, cell = Some (d, fst r) /\ snd r = cell /\ same d deps = true)
  \/ (fst r = calc tt /\ snd r = Some (deps, calc tt)
      /\ forall d a, cell = Some (d, a) -> same d deps = false).
Proof.
  unfold useMemo. destruct cell as [[d a]|].
  - destruct (same d deps) eqn:E.
    + left. now exists d.
    + right. cbn. repeat split. now intros d' a' [= <- <-].
  - right. cbn. repeat split. discriminate.
Qed.

Lemma same_obj_ref {A} (a b : Obj A) : same_obj a b = true <-> ref a = ref b.
Proof. apply Ref_eqb_eq. Qed.

Lemma older_mono (n m : nat) (r : Ref) : (n <= m)%nat -> older n r -> older m r.
Proof. destruct r; cbn; [trivial | lia]. Qed.

Lemma older_fresh (n : nat) (r : Ref) : older n r -> r <> Loc n.
Proof. destruct r; cbn; [discriminate | intros Hlt [= ->]; lia]. Qed.

Lemma older_fresh_S (n : nat) (r : Ref) : older n r -> r <> Loc (S n).
Proof. destruct r; cbn; [discriminate | intros Hlt [= ->]; lia]. Qed.

Lemma same_NodesDeps_refs (a b : Part000.NodesDeps) :
  Part000.same_NodesDeps a b = true ->
  ref (Part000.d_xTicksNormalized a) = ref (Part000.d_xTicksNormalized b)
  /\ ref (Part000.d_xScale a) = ref (Part000.d_xScale b).
Proof.
  unfold Part000.same_NodesDeps. rewrite !andb_true_iff, !same_obj_ref.
  tauto.
Qed.

Section Part000_hooks.
Context {I : Imports}.
Variable p : Axis.Props.
Variable s : Part000.AxisState.

Local Abbreviation r1 := (Part000.ticks_cell p s).
Local Abbreviation r2 := (Part000.scale_cell p s).
Local Abbreviation r3 := (Part000.nodes_cell p s).

Lemma Part000_XAxis_cells :
  Part000.XAxis p s =
  (fst r3,
   {| Part000.next := 2 + Part000.next s;
      Part000.memo_xTicksNormalized := snd r1;
      Part000.matrixRef := Part000.matrixRef s;
      Part000.memo_xScale := snd r2;
      Part000.memo_xAxisNodes := snd r3 |}).
Proof.
  unfold Part000.XAxis, Part000.nodes_cell, Part000.scale_cell,
    Part000.ticks_cell.
  destruct (useMemo Part000.same_TicksDeps _ _ _) as [v1 c1]. cbn [fst snd].
  destruct (useMemo Part000.same_ScaleDeps _ _ _) as [v2 c2]. cbn [fst snd].
  destruct (useMemo Part000.same_NodesDeps _ _ _) as [v3 c3]. reflexivity.
Qed.

(** The tick list of the render: the remembered one, or a new one. *)
Lemma Part000_ticks_cell :
  (exists d, Part000.memo_xTicksNormalized s = Some (d, fst r1)
             /\ snd r1 = Part000.memo_xTicksNormalized s
             /\ Part000.same_TicksDeps d
                  (Axis.tickValues p, Part000.tickCount p, Axis.xScale p)
                = true)
  \/ (ref (fst r1) = Loc (Part000.next s)
      /\ deref (fst r1) =
         Part000.ticks_of (Axis.tickValues p) (Part000.tickCount p)
           (Axis.xScale p)
      /\ snd r1 =
         Some ((Axis.tickValues p, Part000.tickCount p, Axis.xScale p),
               fst r1)).
Proof.
  destruct (useMemo_cases Part000.same_TicksDeps
              (Part000.memo_xTicksNormalized s)
              (Part000.calc_xTicksNormalized p (Loc (Part000.next s)))
              (Axis.tickValues p, Part000.tickCount p, Axis.xScale p))
    as [(d & Hc & Hs & Hd) | (Hf & Hs & _)].
  - left. now exists d.
  - right. unfold Part000.ticks_cell. rewrite Hs, Hf. auto.
Qed.

Lemma Part000_ticks_value :
  Part000.ticks_ok s -> Part000.coherent s p ->
  deref (fst r1) =
  Part000.ticks_of (Axis.tickValues p) (Part000.tickCount p) (Axis.xScale p).
Proof.
  intros Hok (_ & Hco & _).
  destruct Part000_ticks_cell as [(d & Hc & _ & Hs) | (_ & Hd & _)];
    [|exact Hd].
  destruct d as [[tv tc] xs].
  destruct (Hok _ _ _ _ Hc) as (_ & _ & Hd).
  destruct (Hco _ _ _ _ Hc) as (Hxs & Htv).
  rewrite Hd. cbn in Hs. rewrite !andb_true_iff in Hs.
  destruct Hs as [[Hs1 Hs2] Hs3].
  apply Qceqb_eq in Hs2. apply same_obj_ref in Hs3.
  rewrite (Hxs Hs3), Hs2.
  destruct tv as [a|], (Axis.tickValues p) as [b|] eqn:Eb;
    try discriminate Hs1; [|reflexivity].
  cbn in Hs1. apply same_obj_ref in Hs1.
  now rewrite (Htv a b eq_refl eq_refl Hs1).
Qed.

Lemma Part000_ticks_older :
  Part000.ticks_ok s -> older (2 + Part000.next s) (ref (fst r1)).
Proof.
  intros Hok.
  destruct Part000_ticks_cell as [(d & Hc & _) | (Hr & _)].
  - destruct d as [[tv tc] xs]. destruct (Hok _ _ _ _ Hc) as (_ & Ho & _).
    eapply older_mono; [|exact Ho]. lia.
  - rewrite Hr. cbn. lia.
Qed.

(** The x scale of the render: the remembered one, the incoming one, or a
    new rescaling of the incoming one by the matrix in [matrixRef]. *)
Lemma Part000_scale_cell :
  (exists d, Part000.memo_xScale s = Some (d, fst r2)
             /\ snd r2 = Part000.memo_xScale s
             /\ Part000.same_ScaleDeps d (Axis.xScale p, fst r1) = true)
  \/ (snd r2 = Some ((Axis.xScale p, fst r1), fst r2)
      /\ ((Part000.matrixRef s = None /\ fst r2 = Axis.xScale p)
          \/ exists m,
               Part000.matrixRef s = Some m
               /\ fst r2 =
                  mkObj (Loc (S (Part000.next s)))
                    (rescaleX (Part000.as_zoom m) (deref (Axis.xScale p))))).
Proof.
  destruct (useMemo_cases Part000.same_ScaleDeps (Part000.memo_xScale s)
              (Part000.calc_xScale p (Part000.matrixRef s)
                 (Loc (S (Part000.next s))))
              (Axis.xScale p, fst r1))
    as [(d & Hc & Hs & Hd) | (Hf & Hs & _)].
  - left. now exists d.
  - right. unfold Part000.scale_cell. rewrite Hs, Hf.
    split; [reflexivity|].
    unfold Part000.calc_xScale. destruct (Part000.matrixRef s) as [m|].
    + right. now exists m.
    + left. auto.
Qed.

Lemma Part000_scale_value :
  Part000.scale_ok s -> Part000.coherent s p ->
  Part000.from_scale (Axis.xScale p) (fst r2).
Proof.
  intros Hok (_ & _ & Hco & _).
  destruct Part000_scale_cell
    as [(d & Hc & _ & Hs) | (_ & [[_ ->] | (m & _ & ->)])].
  - destruct d as [xs xt]. destruct (Hok _ _ _ Hc) as (_ & _ & Hv).
    unfold Part000.same_ScaleDeps in Hs. cbn in Hs.
    apply andb_true_iff in Hs as [Hs _]. apply same_obj_ref in Hs.
    now rewrite <- (Hco _ _ _ Hc Hs).
  - now left.
  - right. split; [exact Logic.I|]. now exists m.
Qed.

Lemma Part000_scale_older :
  Part000.scale_ok s -> is_ext (ref (Axis.xScale p)) ->
  older (2 + Part000.next s) (ref (fst r2)).
Proof.
  intros Hok He.
  destruct Part000_scale_cell
    as [(d & Hc & _) | (_ & [[_ ->] | (m & _ & ->)])].
  - destruct d as [xs xt]. destruct (Hok _ _ _ Hc) as (_ & Ho & _).
    eapply older_mono; [|exact Ho]. lia.
  - destruct (ref (Axis.xScale p)); [exact Logic.I | destruct He].
  - cbn. lia.
Qed.

Lemma Part000_nodes_cell :
  (exists d, Part000.memo_xAxisNodes s = Some (d, fst r3)
             /\ snd r3 = Part000.memo_xAxisNodes s
             /\ Part000.same_NodesDeps d
                  (Part000.nodes_deps p (fst r1) (fst r2)) = true)
  \/ (fst r3 = map (Part000.element p (fst r2)) (deref (fst r1))
      /\ snd r3 = Some (Part000.nodes_deps p (fst r1) (fst r2), fst r3)).
Proof.
  destruct (useMemo_cases Part000.same_NodesDeps (Part000.memo_xAxisNodes s)
              (fun _ => map (Part000.element p (fst r2)) (deref (fst r1)))
              (Part000.nodes_deps p (fst r1) (fst r2)))
    as [(d & Hc & Hs & Hd) | (Hf & Hs & _)].
  - left. now exists d.
  - right. unfold Part000.nodes_cell. rewrite Hs, Hf. auto.
Qed.

(** Remembered nodes are the nodes of the tick list and of the x scale of
    this render. *)
Lemma Part000_nodes_remembered (d : Part000.NodesDeps)
    (nodes : list Axle.Props) :
  Part000.axis_ok s -> Part000.coherent s p ->
  Part000.memo_xAxisNodes s = Some (d, nodes) ->
  Part000.same_NodesDeps d (Part000.nodes_deps p (fst r1) (fst r2)) = true ->
  Part000.d_xTicksNormalized d = fst r1 /\ Part000.d_xScale d = fst r2.
Proof.
  intros (Ht & Hsc & Hn) Hco Hc Hs.
  apply same_NodesDeps_refs in Hs as [Hrt Hrx]. cbn in Hrt, Hrx.
  destruct (Hn _ _ Hc) as (_ & _ & Hot & Hox & Et & Ex).
  split.
  - destruct Part000_ticks_cell as [(d1 & Hc1 & _) | (Hr & _)].
    + exact (Et _ _ Hc1 Hrt).
    + rewrite Hr in Hrt. now apply older_fresh in Hot.
  - destruct Hco as (He & _ & Hco2 & Hco3).
    assert (Hin : fst r2 = Axis.xScale p -> Part000.d_xScale d = fst r2).
    { intros E. rewrite E in *. exact (Hco3 _ _ Hc Hrx). }
    destruct Part000_scale_cell
      as [(d2 & Hc2 & _ & Hs2) | (_ & [[_ E] | (m & _ & E)])].
    + destruct d2 as [xs xt]. destruct (Hsc _ _ _ Hc2) as (_ & _ & [Hv|[Hl _]]).
      * apply Hin. rewrite Hv. apply (Hco2 _ _ _ Hc2).
        unfold Part000.same_ScaleDeps in Hs2. cbn in Hs2.
        apply andb_true_iff in Hs2 as [Hs2 _]. now apply same_obj_ref.
      * exact (Ex _ _ Hc2 Hl Hrx).
    + exact (Hin E).
    + rewrite E in Hrx. cbn in Hrx. now apply older_fresh_S in Hox.
Qed.

Lemma Part000_nodes_value :
  Part000.axis_ok s -> Part000.coherent s p ->
  map Axle.tick (fst r3) = deref (fst r1)
  /\ Forall (fun e => Axle.xScale e = fst r2) (fst r3).
Proof.
  intros Hok Hco.
  destruct Part000_nodes_cell as [(d & Hc & _ & Hs) | (-> & _)].
  - destruct (Part000_nodes_remembered Hok Hco Hc Hs) as [<- <-].
    destruct Hok as (_ & _ & Hn). destruct (Hn _ _ Hc) as (Hm & Hf & _).
    now split.
  - split.
    + rewrite map_map. cbn. apply map_id.
    + apply Forall_forall. intros e He. apply in_map_iff in He as (t & <- & _).
      reflexivity.
Qed.

(** A render keeps the cells as they should be. *)
Lemma Part000_render_ok :
  Part000.axis_ok s -> is_ext (ref (Axis.xScale p)) ->
  Part000.axis_ok (snd (Part000.XAxis p s)).
Proof.
  intros (Ht & Hsc & Hn) He. rewrite Part000_XAxis_cells. cbn [snd].
  assert (Ho1 := Part000_ticks_older Ht).
  assert (Ho2 := Part000_scale_older Hsc He).
  split; [|split].
  - intros tv tc xs v. cbn.
    destruct Part000_ticks_cell as [(d & Hc & -> & _) | (Hr & Hd & ->)].
    + intros Hc'. destruct (Ht _ _ _ _ Hc') as (Hl & Ho & Hv).
      split; [exact Hl|]. split; [|exact Hv].
      eapply older_mono; [|exact Ho]. lia.
    + intros [= <- <- <- <-]. rewrite Hr. cbn.
      split; [exact Logic.I|]. split; [lia | exact Hd].
  - intros xs xt v. cbn.
    destruct Part000_scale_cell
      as [(d & Hc & -> & _) | (-> & Hv)].
    + intros Hc'. destruct (Hsc _ _ _ Hc') as (Hx & Ho & Hf).
      split; [exact Hx|]. split; [|exact Hf].
      eapply older_mono; [|exact Ho]. lia.
    + intros [= <- <- <-]. split; [exact He|]. split; [exact Ho2|].
      destruct Hv as [[_ ->] | (m & _ & ->)].
      * now left.
      * right. split; [exact Logic.I|]. now exists m.
  - intros d nodes. cbn.
    destruct Part000_nodes_cell as [(d0 & Hc & -> & _) | (Hf & ->)].
    + intros Hc'. destruct (Hn _ _ Hc') as (Hm & Hx & Hot & Hox & Et & Ex).
      split; [exact Hm|]. split; [exact Hx|].
      split; [eapply older_mono; [|exact Hot]; lia|].
      split; [eapply older_mono; [|exact Hox]; lia|]. split.
      * intros d1 v1.
        destruct Part000_ticks_cell as [(d' & _ & -> & _) | (Hr & _ & ->)].
        -- apply Et.
        -- intros [= <- <-] E. rewrite Hr in E. now apply older_fresh in Hot.
      * intros d2 v2.
        destruct Part000_scale_cell
          as [(d' & _ & -> & _) | (-> & [[_ Hv] | (m & _ & Hv)])].
        -- apply Ex.
        -- intros [= <- <-] Hl. rewrite Hv in Hl.
           destruct (ref (Axis.xScale p)); [destruct Hl | destruct He].
        -- intros [= <- <-] _ E. rewrite Hv in E. cbn in E.
           now apply older_fresh_S in Hox.
    + intros [= <- <-]. cbn. rewrite Hf. split.
      * rewrite map_map. cbn. apply map_id.
      * split.
        { apply Forall_forall. intros e Hin.
          apply in_map_iff in Hin as (t & <- & _). reflexivity. }
        split; [exact Ho1|]. split; [exact Ho2|]. split.
        -- intros d1 v1.
           destruct Part000_ticks_cell as [(d' & Hc & -> & _) | (_ & _ & ->)].
           ++ rewrite Hc. now intros [= _ <-].
           ++ now intros [= _ <-].
        -- intros d2 v2.
           destruct Part000_scale_cell as [(d' & Hc & -> & _) | (-> & _)].
           ++ rewrite Hc. now intros [= _ <-].
           ++ now intros [= _ <-].
Qed.

End Part000_hooks.

Lemma Part000_reachable_ok `{Imports} (s : Part000.AxisState) :
  Part000.reachable s -> Part000.axis_ok s.
Proof.
  induction 1 as [|p s He _ IH|value s _ IH].
  - repeat split; discriminate.
  - now apply Part000_render_ok.
  - exact IH.
Qed.

Lemma Part000_coherent_mount `{Imports} (p : Axis.Props) :
  is_ext (ref (Axis.xScale p)) -> Part000.coherent Part000.mount_axis p.
Proof. intros He. repeat split; try exact He; discriminate. Qed.

(** The nodes of a render in [part_000]: the leaves of the tick list, each
    with the memoised x scale. *)
Lemma Part000_XAxis_nodes `{Imports} (p : Axis.Props)
    (s : Part000.AxisState) :
  Part000.reachable s -> Part000.coherent s p ->
  map Axle.tick (fst (Part000.XAxis p s)) =
    Part000.ticks_of (Axis.tickValues p) (Part000.tickCount p) (Axis.xScale p)
  /\ Forall (fun e => Part000.from_scale (Axis.xScale p) (Axle.xScale e))
       (fst (Part000.XAxis p s)).
Proof.
  intros Hr Hco. apply Part000_reachable_ok in Hr.
  rewrite Part000_XAxis_cells. cbn [fst].
  destruct (Part000_nodes_value Hr Hco) as [Hm Hf]. split.
  - rewrite Hm. destruct Hr as [Ht _]. exact (Part000_ticks_value Ht Hco).
  - destruct Hr as (_ & Hs & _).
    pose proof (Part000_scale_value Hs Hco) as Hv.
    eapply Forall_impl; [|exact Hf]. cbn. now intros e ->.
Qed.

Lemma Qc_list_ext (l l' : list number) : map this l = map this l' -> l = l'.
Proof.
  revert l'. induction l as [|a l IH]; intros [|b l']; cbn; try discriminate.
  - reflexivity.
  - intros [= Hab Hl]. f_equal; [|now apply IH].
    apply Qc_is_canon. now rewrite Hab.
Qed.

(** ** C2: the tick set *)

(** C2, as the code has it. With tick values given, the ticks of a render
    are [downsampleTicks(tickValues, tickCount)], whatever [zoom] and
    [enableRescaling] are.  Without tick values they are: in [XAxis.tsx],
    the ticks of the rescaled x scale when [enableRescaling] is set and a
    zoom is given, and the ticks of the incoming x scale otherwise; in
    [part_000], the ticks of the incoming x scale.  [tickCount] defaults to
    5. *)
Theorem C2_tick_set :
  forall (I : Imports) (p : Axis.Props),
    (forall s, Lib.reachable s ->
       map Axle.tick (fst (Lib.XAxis p s)) =
       claimed_ticks (ticks_scale p) p)
    /\ (forall s, Part000.reachable s -> Part000.coherent s p ->
          map Axle.tick (fst (Part000.XAxis p s)) =
          claimed_ticks (deref (Axis.xScale p)) p).
Proof.
  intros I p. split.
  - intros s Hr. rewrite (Lib_XAxis_nodes p Hr), map_map. cbn. rewrite map_id.
    unfold Lib.xTicksNormalized, claimed_ticks, ticks_scale, Lib.xScale.
    destruct (Axis.tickValues p); [reflexivity|].
    destruct (Axis.zoom p), (Axis.enableRescaling p); reflexivity.
  - intros s Hr Hco. now destruct (Part000_XAxis_nodes Hr Hco) as [-> _].
Qed.

Lemma Part000_coherent_same `{Imports} (p : Axis.Props) :
  is_ext (ref (Axis.xScale p)) ->
  Part000.coherent (snd (Part000.XAxis p Part000.mount_axis)) p.
Proof.
  intros He. split; [exact He|]. split; [|split].
  - intros tv tc xs v Hc. cbn in Hc. injection Hc as <- <- <- <-. split.
    + now intros _.
    + intros a b Ha Hb. rewrite Ha in Hb. injection Hb as <-. now intros _.
  - intros xs xt v Hc. cbn in Hc. injection Hc as <- _ _. now intros _.
  - intros d nodes Hc. cbn in Hc. injection Hc as <- _. now intros _.
Qed.

Lemma C2_tick_set_witness :
  map Axle.tick
    (fst (Part000.XAxis (I := Example.imports) Example.props
            (Part000.reaction (Some Example.matrix2)
               (snd (Part000.XAxis (I := Example.imports) Example.props
                       Part000.mount_axis)))))
  = map int [0; 10]%Z.
Proof.
  rewrite (proj2 (C2_tick_set Example.imports Example.props)).
  - reflexivity.
  - apply Part000.reach_reaction, Part000.reach_render.
    + exact Logic.I.
    + apply Part000.reach_mount.
  - apply (Part000_coherent_same (H := Example.imports) Example.props).
    exact Logic.I.
Defined.

(** The claim fails in [XAxis.tsx] whichever scale "the x scale" is.  On
    the first render of the example chart without tick values and zoomed by
    two: without [enableRescaling] the ticks are 0, 2, ..., 10, and not the
    ticks 0, 1, ..., 5 of the rescaled scale that positions them; with
    [enableRescaling] the ticks are 0, 1, ..., 5, and not the ticks 0, 2,
    ..., 10 of the incoming scale. *)
Lemma C2_tick_set_counterexample :
  (map Axle.tick
     (fst (Lib.XAxis (I := Example.imports) Example.props_zoom
             Lib.mount_axis)) = map int [0; 2; 4; 6; 8; 10]%Z
   /\ exists e,
        hd_error (fst (Lib.XAxis (I := Example.imports) Example.props_zoom
                         Lib.mount_axis)) = Some e
        /\ claimed_ticks (I := Example.imports) (deref (Axle.xScale e))
             Example.props_zoom = map int [0; 1; 2; 3; 4; 5]%Z)
  /\ (map Axle.tick
        (fst (Lib.XAxis (I := Example.imports) Example.props_rescaling
                Lib.mount_axis)) = map int [0; 1; 2; 3; 4; 5]%Z
      /\ claimed_ticks (I := Example.imports)
           (deref (Axis.xScale Example.props_rescaling))
           Example.props_rescaling = map int [0; 2; 4; 6; 8; 10]%Z).
Proof.
  split; split.
  - apply Qc_list_ext. reflexivity.
  - eexists. split; [reflexivity|]. apply Qc_list_ext. reflexivity.
  - apply Qc_list_ext. reflexivity.
  - apply Qc_list_ext. reflexivity.
Qed.

(** ** C3: the scale of the positions *)


Lemma Part000_XAxis_mount `{Imports} (p : Axis.Props) :
  fst (Part000.XAxis p Part000.mount_axis) =
  map (Part000.element p (Axis.xScale p))
      (claimed_ticks (deref (Axis.xScale p)) p).
Proof. reflexivity. Qed.








(** ** The first render *)

Lemma render_tree_mount {H S}
    (XAxis : Axis.Props -> H -> list Axle.Props * H)
    (XAxle : Axle.Props -> S -> Drawn * S) (mount : S)
    (p : Axis.Props) (h : H) :
  fst (render_tree XAxis XAxle mount p {| hooks := h; children := [] |})
  = map (fun e => fst (XAxle e mount)) (fst (XAxis p h)).
Proof.
  unfold render_tree. cbn [hooks children].
  destruct (XAxis p h) as [nodes h']. cbn. now rewrite map_map.
Qed.

Lemma Lib_XAxis_mount `{Imports} (p : Axis.Props) :
  fst (Lib.XAxis p Lib.mount_axis) =
  map (Lib.element p (Lib.xScale p (Loc 0))) (claimed_ticks (ticks_scale p) p).
Proof.
  rewrite (Lib_XAxis_nodes p Lib.reach_mount). cbn. f_equal.
  unfold Lib.xTicksNormalized, claimed_ticks, ticks_scale, Lib.xScale.
  destruct (Axis.tickValues p); [reflexivity|].
  destruct (Axis.zoom p), (Axis.enableRescaling p); reflexivity.
Qed.

(** ** The first render *)

(** The first render of an axis draws, for every tick of the tick set, the
    gridline and the label computed from the properties passed in: in
    [XAxis.tsx] with the zoomed x scale and in [part_000] with the incoming
    x scale. *)
Lemma first_render_fresh `{Imports} (p : Axis.Props) :
  fst (Lib.render p Lib.mount)
  = map (fresh_draw Lib.canFitLabelContent)
      (map (Lib.element p (Lib.xScale p (Loc 0)))
         (claimed_ticks (ticks_scale p) p))
  /\ fst (Part000.render p Part000.mount)
     = map (fresh_draw Part000.canFitLabelContent)
         (map (Part000.element p (Axis.xScale p))
            (claimed_ticks (deref (Axis.xScale p)) p)).
Proof.
  split.
  - unfold Lib.render, Lib.mount. rewrite render_tree_mount, Lib_XAxis_mount.
    reflexivity.
  - unfold Part000.render, Part000.mount.
    rewrite render_tree_mount, Part000_XAxis_mount. reflexivity.
Qed.

(** ** C4: the gridline *)

(** In [XAxis.tsx] the two end points are memoised on the tick alone.  They
    always share their x coordinate... *)
Lemma Lib_XAxle_ok `{Imports} (e : Axle.Props) (s : Lib.AxleState) :
  Lib.axle_ok s -> Lib.axle_ok (snd (Lib.XAxle e s)).
Proof.
  intros Hok. right. unfold Lib.XAxle, useMemo.
  destruct Hok as [[-> ->] | (t & a & b & -> & -> & Hx)].
  - exists (Axle.tick e). cbn. eauto.
  - destruct (Qceqb t (Axle.tick e)); cbn; eauto 6.
Qed.

Lemma Lib_gridline_vertical `{Imports} (e : Axle.Props) (s : Lib.AxleState)
    (g : PointsNode) :
  Lib.axle_ok s -> gridline (fst (Lib.XAxle e s)) = Some g ->
  exists a b, pn_points g = [a; b] /\ px a = px b.
Proof.
  intros Hok. rewrite Lib_XAxle_gridline. unfold Leaf.line_node.
  destruct (Qcltb 0 (Leaf.lineWidth e)); [|discriminate]. intros [= <-]. cbn.
  do 2 eexists. split; [reflexivity|]. unfold useMemo.
  destruct Hok as [[-> ->] | (t & a & b & -> & -> & Hx)]; [reflexivity|].
  now destruct (Qceqb t (Axle.tick e)).
Qed.

(** ... but they are those of the scales of the render that first drew the
    tick, and of the current scales on that first render only. *)
Lemma Lib_XAxle_mount `{Imports} (e : Axle.Props) :
  fst (Lib.XAxle e Lib.mount_axle) = fresh_draw Lib.canFitLabelContent e.
Proof. reflexivity. Qed.

(** In [part_000] the two end points are memoised on the tick, the scales and
    the domain: they are those of the current scales at every render. *)
Lemma Part000_XAxle_ok `{Imports} (e : Axle.Props) (s : Part000.AxleState) :
  Part000.axle_ok s -> Part000.axle_ok (snd (Part000.XAxle e s)).
Proof.
  intros [H1 H2]. unfold Part000.XAxle, useMemo. split.
  - destruct (Part000.memo_p1 s) as [[d a]|] eqn:E1,
      (Part000.memo_p2 s) as [[d' a']|] eqn:E2; cbn;
      repeat match goal with
        | |- context [Part000.same_PointDeps ?a ?b] =>
            destruct (Part000.same_PointDeps a b); cbn
        end;
      intros t x y ys v Hc;
      try (rewrite E1 in Hc); try (now apply H1);
      now injection Hc as <- <- <- <- <-.
  - destruct (Part000.memo_p1 s) as [[d a]|] eqn:E1,
      (Part000.memo_p2 s) as [[d' a']|] eqn:E2; cbn;
      repeat match goal with
        | |- context [Part000.same_PointDeps ?a ?b] =>
            destruct (Part000.same_PointDeps a b); cbn
        end;
      intros t x y ys v Hc;
      try (rewrite E2 in Hc); try (now apply H2);
      now injection Hc as <- <- <- <- <-.
Qed.

Lemma same_PointDeps_agree (t t' y y' : number) (x x' ys ys' : Obj Scale) :
  Part000.same_PointDeps (t, x, y, ys) (t', x', y', ys') = true ->
  agree x x' -> agree ys ys' ->
  vec (call x t) (call ys y) = vec (call x' t') (call ys' y').
Proof.
  cbn. rewrite !andb_true_iff, !Qceqb_eq, !same_obj_ref.
  intros [[[-> Hx] ->] Hy] Ax Ay. now rewrite (Ax Hx), (Ay Hy).
Qed.

Lemma Part000_gridline_fresh `{Imports} (e : Axle.Props)
    (s : Part000.AxleState) :
  Part000.axle_ok s -> Part000.axle_coherent s e ->
  gridline (fst (Part000.XAxle e s))
  = gridline (fresh_draw Part000.canFitLabelContent e).
Proof.
  intros [H1 H2] Hco. rewrite Part000_XAxle_gridline. cbn. f_equal.
  - destruct (useMemo_cases Part000.same_PointDeps (Part000.memo_p1 s)
                (Leaf.calc_p1 e)
                (Axle.tick e, Axle.xScale e, Axle.y2 e, Axle.yScale e))
      as [(d & Hc & _ & Hs) | (-> & _)]; [|reflexivity].
    destruct d as [[[t x] y] ys]. rewrite (H1 _ _ _ _ _ Hc).
    destruct (Hco t x y ys _ (or_introl Hc)) as [Ax Ay].
    eapply same_PointDeps_agree; eassumption.
  - destruct (useMemo_cases Part000.same_PointDeps (Part000.memo_p2 s)
                (Leaf.calc_p2 e)
                (Axle.tick e, Axle.xScale e, Axle.y1 e, Axle.yScale e))
      as [(d & Hc & _ & Hs) | (-> & _)]; [|reflexivity].
    destruct d as [[[t x] y] ys]. rewrite (H2 _ _ _ _ _ Hc).
    destruct (Hco t x y ys _ (or_intror Hc)) as [Ax Ay].
    eapply same_PointDeps_agree; eassumption.
Qed.

(** C4 at an input where [XAxis.tsx] departs from it. The example chart is
    rendered with ticks at 0 and 4, then again on an x scale twice as
    steep.  On the second render the tick 4 lies at the pixel 80 and its
    label is centred there (drawn from 77, 6 wide), but its gridline is
    still drawn at 40, where the first render put it.  [part_000] draws
    the gridline at 80. *)
Theorem C4_gridline_stale :
  map gridline_x
    (fst (Lib.render (I := Example.imports) Example.props_04 Lib.mount))
  = [[0; 0]; [40; 40]]%Q
  /\ map (fun e => this (tick_x e))
       (fst (Lib.XAxis (I := Example.imports) Example.props_04_steep
               (hooks (snd (Lib.render (I := Example.imports)
                              Example.props_04 Lib.mount)))))
     = [0; 80]%Q
  /\ map gridline_x
       (fst (Lib.render (I := Example.imports) Example.props_04_steep
               (snd (Lib.render (I := Example.imports) Example.props_04
                       Lib.mount))))
     = [[0; 0]; [40; 40]]%Q
  /\ map label_x
       (fst (Lib.render (I := Example.imports) Example.props_04_steep
               (snd (Lib.render (I := Example.imports) Example.props_04
                       Lib.mount))))
     = [Some (-3); Some 77]%Q
  /\ map gridline_x
       (fst (Part000.render (I := Example.imports) Example.props_04_steep
               (snd (Part000.render (I := Example.imports) Example.props_04
                       Part000.mount))))
     = [[0; 0]; [80; 80]]%Q.
Proof.
  split; [|split; [|split; [|split]]]; vm_compute; reflexivity.
Qed.

(** * More of the behaviour of the leaves *)

(** ** The gridline of [XAxis.tsx] over several renders *)

Lemma Lib_XAxle_cells `{Imports} (e : Axle.Props) (s : Lib.AxleState) :
  exists a b,
    Lib.memo_p1 (snd (Lib.XAxle e s)) = Some (Axle.tick e, a)
    /\ Lib.memo_p2 (snd (Lib.XAxle e s)) = Some (Axle.tick e, b)
    /\ gridline (fst (Lib.XAxle e s)) = Leaf.line_node e a b.
Proof.
  unfold Lib.XAxle, useMemo.
  destruct (Lib.memo_p1 s) as [[t1 a1]|], (Lib.memo_p2 s) as [[t2 a2]|];
    repeat match goal with
      | |- context [Qceqb ?t (Axle.tick e)] =>
          let E := fresh "E" in
          destruct (Qceqb t (Axle.tick e)) eqn:E;
          [apply Qceqb_eq in E; subst t|]
      end; cbn; eauto.
Qed.

Lemma Lib_XAxle_kept `{Imports} (e : Axle.Props) (s : Lib.AxleState)
    (a b : SkPoint) :
  Lib.memo_p1 s = Some (Axle.tick e, a) ->
  Lib.memo_p2 s = Some (Axle.tick e, b) ->
  Lib.memo_p1 (snd (Lib.XAxle e s)) = Some (Axle.tick e, a)
  /\ Lib.memo_p2 (snd (Lib.XAxle e s)) = Some (Axle.tick e, b)
  /\ gridline (fst (Lib.XAxle e s)) = Leaf.line_node e a b.
Proof.
  intros H1 H2. unfold Lib.XAxle, useMemo. rewrite H1, H2, Qceqb_refl.
  cbn. auto.
Qed.

Lemma Lib_axle_renders_kept `{Imports} (t : number) (a b : SkPoint)
    (es : list Axle.Props) (s : Lib.AxleState) :
  (forall x, In x es -> Axle.tick x = t) ->
  Lib.memo_p1 s = Some (t, a) -> Lib.memo_p2 s = Some (t, b) ->
  Lib.memo_p1 (Lib_axle_renders s es) = Some (t, a)
  /\ Lib.memo_p2 (Lib_axle_renders s es) = Some (t, b).
Proof.
  revert s. induction es as [|x es IH]; intros s Ht H1 H2; [now split|].
  cbn. assert (Hx : Axle.tick x = t) by (apply Ht; now left). subst t.
  destruct (Lib_XAxle_kept x s H1 H2) as (K1 & K2 & _).
  apply IH; auto. intros y Hy. apply Ht. now right.
Qed.

Lemma line_node_points `{Imports} (e : Axle.Props) (a b : SkPoint)
    (pts : list SkPoint) :
  gridline_points {| gridline := Leaf.line_node e a b; label := None |}
    = Some pts -> pts = [a; b].
Proof.
  unfold gridline_points, Leaf.line_node. cbn.
  destruct (Qcltb 0 (Leaf.lineWidth e)); [|discriminate]. now intros [= <-].
Qed.

(** In [XAxis.tsx] the gridline of a tick never moves: whatever the scales,
    the domain and the other properties of the later renders of a leaf for
    the same tick, the end points drawn are those of the first of these
    renders. *)
Theorem X1_gridline_frozen :
  forall (I : Imports) (e e' : Axle.Props) (es : list Axle.Props)
         (s : Lib.AxleState) (pts pts' : list SkPoint),
    (forall x, In x es -> Axle.tick x = Axle.tick e) ->
    Axle.tick e' = Axle.tick e ->
    gridline_points (fst (Lib.XAxle e s)) = Some pts ->
    gridline_points
      (fst (Lib.XAxle e' (Lib_axle_renders (snd (Lib.XAxle e s)) es)))
      = Some pts' ->
    pts' = pts.
Proof.
  intros I e e' es s pts pts' Hes He'.
  destruct (Lib_XAxle_cells e s) as (a & b & H1 & H2 & Hg).
  destruct (Lib_axle_renders_kept es _ Hes H1 H2) as [K1 K2].
  rewrite <- He' in K1, K2.
  destruct (Lib_XAxle_kept e' _ K1 K2) as (_ & _ & Hg').
  unfold gridline_points. rewrite Hg, Hg'. intros Hp Hp'.
  apply (line_node_points e a b) in Hp. apply (line_node_points e' a b) in Hp'.
  congruence.
Qed.

Lemma X1_gridline_frozen_witness :
  gridline_points
    (fst (Lib.XAxle (I := Example.imports) Example2.leaf_4_steep
            (Lib_axle_renders (I := Example.imports)
               (snd (Lib.XAxle (I := Example.imports) Example2.leaf_4
                       Lib.mount_axle))
               [Example2.leaf_4_steep])))
  = gridline_points
      (fst (Lib.XAxle (I := Example.imports) Example2.leaf_4 Lib.mount_axle)).
Proof.
  destruct (gridline_points
              (fst (Lib.XAxle (I := Example.imports) Example2.leaf_4
                      Lib.mount_axle))) as [pts|] eqn:E;
    [|vm_compute in E; discriminate E].
  destruct (gridline_points
              (fst (Lib.XAxle (I := Example.imports) Example2.leaf_4_steep
                      (Lib_axle_renders (I := Example.imports)
                         (snd (Lib.XAxle (I := Example.imports)
                                 Example2.leaf_4 Lib.mount_axle))
                         [Example2.leaf_4_steep])))) as [pts'|] eqn:E';
    [|vm_compute in E'; discriminate E'].
  f_equal.
  apply (X1_gridline_frozen Example.imports Example2.leaf_4
           Example2.leaf_4_steep [Example2.leaf_4_steep] Lib.mount_axle).
  - intros x [<- | []]. reflexivity.
  - reflexivity.
  - exact E.
  - exact E'.
Defined.

Lemma Lib_axle_reachable_ok `{Imports} (s : Lib.AxleState) :
  Lib_axle_reachable s -> Lib.axle_ok s.
Proof.
  induction 1 as [|e s _ IH]; [now left | now apply Lib_XAxle_ok].
Qed.

(** In [XAxis.tsx] the gridline drawn by any render of a leaf, after any
    earlier renders of it, has two end points with one x coordinate: it is
    vertical. *)
Theorem X2_gridline_vertical :
  forall (I : Imports) (e : Axle.Props) (s : Lib.AxleState)
         (pts : list SkPoint),
    Lib_axle_reachable s ->
    gridline_points (fst (Lib.XAxle e s)) = Some pts ->
    exists a b, pts = [a; b] /\ px a = px b.
Proof.
  intros I e s pts Hr. apply Lib_axle_reachable_ok in Hr.
  unfold gridline_points.
  destruct (gridline (fst (Lib.XAxle e s))) as [g|] eqn:E; [|discriminate].
  intros [= <-]. exact (Lib_gridline_vertical e Hr E).
Qed.

Lemma X2_gridline_vertical_witness :
  exists a b,
    gridline_points
      (fst (Lib.XAxle (I := Example.imports) Example2.leaf_4_steep
              (snd (Lib.XAxle (I := Example.imports) Example.leaf
                      Lib.mount_axle)))) = Some [a; b]
    /\ px a = px b.
Proof.
  destruct (gridline_points
              (fst (Lib.XAxle (I := Example.imports) Example2.leaf_4_steep
                      (snd (Lib.XAxle (I := Example.imports) Example.leaf
                              Lib.mount_axle))))) as [pts|] eqn:E;
    [|vm_compute in E; discriminate E].
  destruct (@X2_gridline_vertical Example.imports Example2.leaf_4_steep _ _
              (Lib_axle_render Example.leaf Lib_axle_mount) E)
    as (a & b & -> & Hx).
  now exists a, b.
Defined.

(** ** The gridline of [part_000] over several renders *)

Lemma Part000_axle_reachable_ok `{Imports} (s : Part000.AxleState) :
  Part000_axle_reachable s -> Part000.axle_ok s.
Proof.
  induction 1 as [|e s _ IH]; [|now apply Part000_XAxle_ok].
  split; discriminate.
Qed.

(** In [part_000] every render of a leaf, after any earlier renders of it,
    draws the gridline from the tick, the scales and the domain of this
    render, provided the scales it remembers are the scales of this render
    wherever they have the same reference. *)
Theorem X3_gridline_current :
  forall (I : Imports) (e : Axle.Props) (s : Part000.AxleState),
    Part000_axle_reachable s -> Part000.axle_coherent s e ->
    gridline (fst (Part000.XAxle e s))
    = Leaf.line_node e
        (vec (tick_x e) (call (Axle.yScale e) (Axle.y2 e)))
        (vec (tick_x e) (call (Axle.yScale e) (Axle.y1 e))).
Proof.
  intros I e s Hr Hco. apply Part000_axle_reachable_ok in Hr.
  exact (Part000_gridline_fresh Hr Hco).
Qed.

Lemma X3_gridline_current_witness :
  gridline_x
    (fst (Part000.XAxle (I := Example.imports) Example2.leaf_4_steep
            (snd (Part000.XAxle (I := Example.imports) Example2.leaf_4
                    Part000.mount_axle))))
  = [80; 80]%Q.
Proof.
  unfold gridline_x.
  rewrite (@X3_gridline_current Example.imports Example2.leaf_4_steep _
             (Part000_axle_render Example2.leaf_4 Part000_axle_mount)).
  - reflexivity.
  - intros t x y ys v [Hc | Hc]; cbn in Hc; injection Hc as <- <- <- <- _;
      split; intros Hr; try discriminate Hr; reflexivity.
Defined.

(** ** The defaults *)

Section Defaults_explicit.
Context {I : Imports}.
Variable e : Axle.Props.

Local Abbreviation e' := (leaf_with_defaults e).

Lemma defaults_axisSide : Leaf.axisSide e' = Leaf.axisSide e.
Proof. unfold Leaf.axisSide. cbn. now destruct (Rest.axisSide _). Qed.

Lemma defaults_yAxisSide : Leaf.yAxisSide e' = Leaf.yAxisSide e.
Proof. unfold Leaf.yAxisSide. cbn. now destruct (Rest.yAxisSide _). Qed.

Lemma defaults_labelPosition : Leaf.labelPosition e' = Leaf.labelPosition e.
Proof. unfold Leaf.labelPosition. cbn. now destruct (Rest.labelPosition _). Qed.

Lemma defaults_labelOffset : Leaf.labelOffset e' = Leaf.labelOffset e.
Proof. unfold Leaf.labelOffset. cbn. now destruct (Rest.labelOffset _). Qed.

Lemma defaults_labelColor : Leaf.labelColor e' = Leaf.labelColor e.
Proof. unfold Leaf.labelColor. cbn. now destruct (Rest.labelColor _). Qed.

Lemma defaults_lineWidth : Leaf.lineWidth e' = Leaf.lineWidth e.
Proof. unfold Leaf.lineWidth. cbn. now destruct (Rest.lineWidth _). Qed.

Lemma defaults_lineColor : Leaf.lineColor e' = Leaf.lineColor e.
Proof. unfold Leaf.lineColor. cbn. now destruct (Rest.lineColor _). Qed.

Lemma defaults_contentX : Leaf.contentX e' = Leaf.contentX e.
Proof.
  unfold Leaf.contentX, Leaf.formatXLabel, Leaf.val, Leaf.ix. cbn.
  now destruct (Rest.formatXLabel _).
Qed.

Lemma defaults_labelWidth : Leaf.labelWidth e' = Leaf.labelWidth e.
Proof. unfold Leaf.labelWidth. now rewrite defaults_contentX. Qed.

Lemma defaults_labelX : Leaf.labelX e' = Leaf.labelX e.
Proof. unfold Leaf.labelX. now rewrite defaults_labelWidth. Qed.

Lemma defaults_labelY : Leaf.labelY e' = Leaf.labelY e.
Proof.
  unfold Leaf.labelY.
  now rewrite defaults_axisSide, defaults_labelPosition, defaults_labelOffset.
Qed.

Lemma defaults_rotation : Leaf.rotation e' = Leaf.rotation e.
Proof.
  unfold Leaf.rotation.
  rewrite defaults_axisSide, defaults_labelPosition, defaults_labelX,
    defaults_labelY, defaults_labelWidth.
  unfold Leaf.labelRotate. cbn. now destruct (Rest.labelRotate _).
Qed.

Lemma defaults_line_node (a b : SkPoint) :
  Leaf.line_node e' a b = Leaf.line_node e a b.
Proof.
  unfold Leaf.line_node. now rewrite defaults_lineWidth, defaults_lineColor.
Qed.

Lemma defaults_text_node (fit : bool) :
  Leaf.text_node e' fit = Leaf.text_node e fit.
Proof.
  unfold Leaf.text_node, Leaf.origin, Leaf.rotateOffset.
  rewrite defaults_rotation, defaults_labelWidth, defaults_labelColor,
    defaults_contentX, defaults_labelY, defaults_labelX.
  unfold Leaf.labelRotate. cbn. now destruct (Rest.labelRotate _).
Qed.

Lemma defaults_canFitLabelContent :
  Lib.canFitLabelContent e' = Lib.canFitLabelContent e.
Proof.
  unfold Lib.canFitLabelContent.
  now rewrite defaults_yAxisSide, defaults_labelX, defaults_labelWidth.
Qed.

End Defaults_explicit.

(** The entries of [XAxisDefaults] are the defaults of the properties that
    [XAxle] destructures, and its [labelRotate: 0] is treated as an absent
    [labelRotate]: in both versions a leaf given the entries of
    [XAxisDefaults] for the properties it lacks draws the same nodes, and
    leaves its hooks the same, as the leaf without them. *)
Theorem X4_defaults_explicit :
  forall (I : Imports) (e : Axle.Props),
    (forall s, Lib.XAxle (leaf_with_defaults e) s = Lib.XAxle e s)
    /\ (forall s, Part000.XAxle (leaf_with_defaults e) s = Part000.XAxle e s).
Proof.
  intros I e. split; intros s.
  - unfold Lib.XAxle.
    rewrite defaults_canFitLabelContent, defaults_text_node.
    change (Leaf.calc_p1 (leaf_with_defaults e)) with (Leaf.calc_p1 e).
    change (Leaf.calc_p2 (leaf_with_defaults e)) with (Leaf.calc_p2 e).
    cbn [Axle.tick leaf_with_defaults].
    destruct (useMemo _ (Lib.memo_p1 s) _ _), (useMemo _ (Lib.memo_p2 s) _ _).
    now rewrite defaults_line_node.
  - unfold Part000.XAxle. rewrite defaults_text_node.
    change (Leaf.calc_p1 (leaf_with_defaults e)) with (Leaf.calc_p1 e).
    change (Leaf.calc_p2 (leaf_with_defaults e)) with (Leaf.calc_p2 e).
    cbn [Axle.tick Axle.xScale Axle.yScale Axle.y1 Axle.y2 leaf_with_defaults].
    destruct (useMemo _ (Part000.memo_p1 s) _ _),
      (useMemo _ (Part000.memo_p2 s) _ _).
    now rewrite defaults_line_node.
Qed.

(** * More of the behaviour of the tree *)

Lemma render_tree_nth {H S}
    (XAxis : Axis.Props -> H -> list Axle.Props * H)
    (XAxle : Axle.Props -> S -> Drawn * S) (mount : S)
    (p : Axis.Props) (t : Tree H S) (k : nat) (e : Axle.Props) :
  nth_error (fst (XAxis p (hooks t))) k = Some e ->
  nth_error (fst (render_tree XAxis XAxle mount p t)) k
  = Some (fst (XAxle e (dflt (child_state (Axle.tick e) (children t)) mount))).
Proof.
  unfold render_tree. destruct (XAxis p (hooks t)) as [nodes h]. cbn.
  intros He. rewrite map_map. now rewrite (map_nth_error _ _ _ He).
Qed.

Lemma render_tree_keys {H S}
    (XAxis : Axis.Props -> H -> list Axle.Props * H)
    (XAxle : Axle.Props -> S -> Drawn * S) (mount : S)
    (p : Axis.Props) (t : Tree H S) :
  map fst (children (snd (render_tree XAxis XAxle mount p t)))
  = map Axle.tick (fst (XAxis p (hooks t))).
Proof.
  unfold render_tree. destruct (XAxis p (hooks t)) as [nodes h]. cbn.
  now rewrite !map_map.
Qed.

Lemma render_tree_hooks {H S}
    (XAxis : Axis.Props -> H -> list Axle.Props * H)
    (XAxle : Axle.Props -> S -> Drawn * S) (mount : S)
    (p : Axis.Props) (t : Tree H S) :
  hooks (snd (render_tree XAxis XAxle mount p t)) = snd (XAxis p (hooks t)).
Proof.
  unfold render_tree. now destruct (XAxis p (hooks t)) as [nodes h].
Qed.

Lemma child_state_None {S} (key : number) (l : list (number * S)) :
  ~ In key (map fst l) -> child_state key l = None.
Proof.
  induction l as [|[k s] l IH]; cbn; [reflexivity|]. intros Hn.
  destruct (Qceqb k key) eqn:E.
  - apply Qceqb_eq in E. contradiction Hn. now left.
  - apply IH. intros Hin. apply Hn. now right.
Qed.

Lemma Part000_XAxle_mount `{Imports} (e : Axle.Props) :
  fst (Part000.XAxle e Part000.mount_axle)
  = fresh_draw Part000.canFitLabelContent e.
Proof. reflexivity. Qed.

(** The hooks of a leaf live as long as its tick is rendered.  In both
    versions a tick that was not among the ticks of the previous render is
    drawn with nothing remembered: gridline and label are computed from
    the properties that this render hands to the leaf. *)
Theorem X6_new_tick_fresh :
  forall (I : Imports) (q p : Axis.Props) (k : nat) (e : Axle.Props),
    (forall t,
       nth_error (fst (Lib.XAxis p (hooks (snd (Lib.render q t))))) k
         = Some e ->
       ~ In (Axle.tick e) (map Axle.tick (fst (Lib.XAxis q (hooks t)))) ->
       nth_error (fst (Lib.render p (snd (Lib.render q t)))) k
       = Some (fresh_draw Lib.canFitLabelContent e))
    /\ (forall t,
          nth_error
            (fst (Part000.XAxis p (hooks (snd (Part000.render q t))))) k
            = Some e ->
          ~ In (Axle.tick e)
               (map Axle.tick (fst (Part000.XAxis q (hooks t)))) ->
          nth_error (fst (Part000.render p (snd (Part000.render q t)))) k
          = Some (fresh_draw Part000.canFitLabelContent e)).
Proof.
  intros I q p k e. split; intros t He Hn.
  - unfold Lib.render in *. rewrite (render_tree_nth _ _ _ _ _ _ He).
    rewrite child_state_None by now rewrite render_tree_keys.
    cbn [dflt]. now rewrite Lib_XAxle_mount.
  - unfold Part000.render in *. rewrite (render_tree_nth _ _ _ _ _ _ He).
    rewrite child_state_None by now rewrite render_tree_keys.
    cbn [dflt]. now rewrite Part000_XAxle_mount.
Qed.

Lemma X6_new_tick_fresh_witness :
  option_map gridline_x
    (nth_error
       (fst (Lib.render (I := Example.imports) Example.props_04_steep
               (snd (Lib.render (I := Example.imports) Example.props
                       Lib.mount))))
       1)
  = Some [80; 80]%Q.
Proof.
  rewrite (proj1 (X6_new_tick_fresh Example.imports Example.props
                    Example.props_04_steep 1 Example2.leaf_4_steep)).
  - reflexivity.
  - reflexivity.
  - cbn. intros [E | [E | []]]; apply (f_equal this) in E; discriminate E.
Defined.

(** ** The labels of [XAxis.tsx] *)

Lemma render_tree_labels {H S}
    (XAxis : Axis.Props -> H -> list Axle.Props * H)
    (XAxle : Axle.Props -> S -> Drawn * S) (mount : S)
    (label_of : Axle.Props -> option TextNode)
    (p : Axis.Props) (t : Tree H S) :
  (forall e s, label (fst (XAxle e s)) = label_of e) ->
  map label (fst (render_tree XAxis XAxle mount p t))
  = map label_of (fst (XAxis p (hooks t))).
Proof.
  intros Hl. unfold render_tree. destruct (XAxis p (hooks t)) as [nodes h].
  cbn. rewrite !map_map. apply map_ext. intros e. apply Hl.
Qed.

Lemma Lib_label_of_ref `{Imports} (p : Axis.Props) (r r' : Ref) :
  map (fun e => Leaf.text_node e (Lib.canFitLabelContent e))
    (map (Lib.element p (Lib.xScale p r))
       (Lib.xTicksNormalized p (Lib.xScale p r)))
  = map (fun e => Leaf.text_node e (Lib.canFitLabelContent e))
      (map (Lib.element p (Lib.xScale p r'))
         (Lib.xTicksNormalized p (Lib.xScale p r'))).
Proof.
  rewrite !map_map. unfold Lib.xScale, Lib.xTicksNormalized.
  destruct (Axis.zoom p); reflexivity.
Qed.

(** In [XAxis.tsx] the labels keep nothing from one render to the next:
    after any renders of the axis, the labels of a render are the labels
    that the first render of an axis with the same properties draws. *)
Theorem X7_labels_stateless :
  forall (I : Imports) (p : Axis.Props) (t : Tree Lib.AxisState Lib.AxleState),
    Lib.reachable (hooks t) ->
    map label (fst (Lib.render p t)) = map label (fst (Lib.render p Lib.mount)).
Proof.
  intros I p t Hr. unfold Lib.render.
  rewrite !(render_tree_labels _ _ _
              (fun e => Leaf.text_node e (Lib.canFitLabelContent e)))
    by (intros; apply Lib_XAxle_label).
  rewrite (Lib_XAxis_nodes p Hr).
  rewrite (Lib_XAxis_nodes p Lib.reach_mount).
  apply Lib_label_of_ref.
Qed.

Lemma X7_labels_stateless_witness :
  map (option_map (fun t => this (tn_x t)))
    (map label
       (fst (Lib.render (I := Example.imports) Example.props_04_steep
               (snd (Lib.render (I := Example.imports) Example.props_04
                       Lib.mount)))))
  = [Some (-3); Some 77]%Q.
Proof.
  rewrite (@X7_labels_stateless Example.imports Example.props_04_steep).
  - reflexivity.
  - unfold Lib.render. rewrite render_tree_hooks.
    apply Lib.reach_render, Lib.reach_mount.
Defined.

(** * More of the behaviour of the container in [part_000] *)

(** ** [Object.is] on dependency lists *)

Lemma Ref_eqb_refl (r : Ref) : Ref_eqb r r = true.
Proof. now apply Ref_eqb_eq. Qed.

Lemma Ref_eqb_trans (r s t : Ref) :
  Ref_eqb r s = true -> Ref_eqb s t = true -> Ref_eqb r t = true.
Proof. rewrite !Ref_eqb_eq. congruence. Qed.

Lemma Qceqb_trans (a b c : number) :
  Qceqb a b = true -> Qceqb b c = true -> Qceqb a c = true.
Proof. rewrite !Qceqb_eq. congruence. Qed.

Lemma same_obj_refl {A} (a : Obj A) : same_obj a a = true.
Proof. apply Ref_eqb_refl. Qed.

Lemma same_obj_trans {A} (a b c : Obj A) :
  same_obj a b = true -> same_obj b c = true -> same_obj a c = true.
Proof. apply Ref_eqb_trans. Qed.

Lemma same_opt_refl {A} (f : A -> A -> bool) (a : option A) :
  (forall x, f x x = true) -> same_opt f a a = true.
Proof. intros Hf. destruct a; cbn; auto. Qed.

Lemma same_opt_trans {A} (f : A -> A -> bool) (a b c : option A) :
  (forall x y z, f x y = true -> f y z = true -> f x z = true) ->
  same_opt f a b = true -> same_opt f b c = true -> same_opt f a c = true.
Proof.
  intros Hf. destruct a, b, c; cbn; try discriminate; auto. apply Hf.
Qed.

Lemma string_eqb_trans (a b c : string) :
  String.eqb a b = true -> String.eqb b c = true -> String.eqb a c = true.
Proof. rewrite !String.eqb_eq. congruence. Qed.

Lemma bool_eqb_trans (a b c : bool) :
  Bool.eqb a b = true -> Bool.eqb b c = true -> Bool.eqb a c = true.
Proof. now destruct a, b, c. Qed.

Lemma AxisSide_eqb_trans (a b c : AxisSide) :
  AxisSide_eqb a b = true -> AxisSide_eqb b c = true ->
  AxisSide_eqb a c = true.
Proof. now destruct a, b, c. Qed.

Lemma YAxisSide_eqb_trans (a b c : YAxisSide) :
  YAxisSide_eqb a b = true -> YAxisSide_eqb b c = true ->
  YAxisSide_eqb a c = true.
Proof. now destruct a, b, c. Qed.

Lemma LabelPosition_eqb_trans (a b c : LabelPosition) :
  LabelPosition_eqb a b = true -> LabelPosition_eqb b c = true ->
  LabelPosition_eqb a c = true.
Proof. now destruct a, b, c. Qed.

Lemma same_TicksDeps_trans (a b c : Part000.TicksDeps) :
  Part000.same_TicksDeps a b = true -> Part000.same_TicksDeps b c = true ->
  Part000.same_TicksDeps a c = true.
Proof.
  destruct a as [[va ca] xa], b as [[vb cb] xb], c as [[vc cc] xc]. cbn.
  rewrite !andb_true_iff. intros [[H1 H2] H3] [[K1 K2] K3]. repeat split.
  - eapply same_opt_trans; eauto. intros x y z. apply same_obj_trans.
  - eapply Qceqb_trans; eauto.
  - eapply same_obj_trans; eauto.
Qed.

Lemma same_ScaleDeps_trans (a b c : Part000.ScaleDeps) :
  Part000.same_ScaleDeps a b = true -> Part000.same_ScaleDeps b c = true ->
  Part000.same_ScaleDeps a c = true.
Proof.
  unfold Part000.same_ScaleDeps. rewrite !andb_true_iff.
  intros [H1 H2] [K1 K2]. split; eapply same_obj_trans; eauto.
Qed.

Lemma same_PointDeps_refl (a : Part000.PointDeps) :
  Part000.same_PointDeps a a = true.
Proof.
  destruct a as [[[t x] y] ys]. cbn.
  now rewrite !Qceqb_refl, !same_obj_refl.
Qed.

Lemma same_PointDeps_trans (a b c : Part000.PointDeps) :
  Part000.same_PointDeps a b = true -> Part000.same_PointDeps b c = true ->
  Part000.same_PointDeps a c = true.
Proof.
  destruct a as [[[ta xa] ya] sa], b as [[[tb xb] yb] sb],
    c as [[[tc xc] yc] sc]. cbn.
  rewrite !andb_true_iff. intros [[[H1 H2] H3] H4] [[[K1 K2] K3] K4].
  repeat split; (eapply Qceqb_trans || eapply same_obj_trans); eauto.
Qed.

Lemma same_NodesDeps_trans (a b c : Part000.NodesDeps) :
  Part000.same_NodesDeps a b = true -> Part000.same_NodesDeps b c = true ->
  Part000.same_NodesDeps a c = true.
Proof.
  unfold Part000.same_NodesDeps. rewrite !andb_true_iff.
  intros Hab Hbc.
  repeat match goal with H : _ /\ _ |- _ => destruct H end.
  repeat split;
    first [ eapply same_obj_trans; eassumption
          | eapply Qceqb_trans; eassumption
          | eapply bool_eqb_trans; eassumption
          | eapply same_opt_trans;
            [ first [ exact (@same_obj_trans _) | exact Qceqb_trans
                    | exact Ref_eqb_trans | exact string_eqb_trans
                    | exact AxisSide_eqb_trans | exact YAxisSide_eqb_trans
                    | exact LabelPosition_eqb_trans ]
            | eassumption | eassumption ] ].
Qed.

(** A cell that has just been used is used again when the next
    dependencies are [Object.is]-equal to those of this use. *)
Lemma useMemo_next {D A} (same : D -> D -> bool) (cell : Memo D A)
    (calc calc' : unit -> A) (deps deps' : D) :
  (forall x y z, same x y = true -> same y z = true -> same x z = true) ->
  same deps deps' = true ->
  useMemo same (snd (useMemo same cell calc deps)) calc' deps'
  = useMemo same cell calc deps.
Proof.
  intros Ht Hs.
  destruct (useMemo_cases same cell calc deps)
    as [(d & Hc & Hk & Hd) | (Hf & Hk & _)].
  - rewrite Hk. rewrite Hc at 1. unfold useMemo at 1.
    rewrite (Ht _ _ _ Hd Hs). rewrite <- Hc.
    now rewrite <- Hk at 2; destruct (useMemo same cell calc deps).
  - rewrite Hk. unfold useMemo at 1. rewrite Hs.
    rewrite <- Hf at 1. rewrite <- Hk.
    now destruct (useMemo same cell calc deps).
Qed.

(** ** Two renders with the same dependencies *)

Section Part000_again.
Context {I : Imports}.
Variables p p' : Axis.Props.
Variables s s1 : Part000.AxisState.
Hypothesis Hdeps : Part000_same_deps p p'.
Hypothesis Hticks :
  Part000.memo_xTicksNormalized s1 = snd (Part000.ticks_cell p s).
Hypothesis Hscale : Part000.memo_xScale s1 = snd (Part000.scale_cell p s).
Hypothesis Hnodes : Part000.memo_xAxisNodes s1 = snd (Part000.nodes_cell p s).

Lemma Part000_ticks_cell_again :
  Part000.ticks_cell p' s1 = Part000.ticks_cell p s.
Proof.
  unfold Part000.ticks_cell at 1. rewrite Hticks.
  apply useMemo_next; [exact same_TicksDeps_trans | exact (proj1 Hdeps)].
Qed.

Lemma Part000_scale_cell_again :
  Part000.scale_cell p' s1 = Part000.scale_cell p s.
Proof.
  unfold Part000.scale_cell at 1.
  rewrite Hscale, Part000_ticks_cell_again.
  apply useMemo_next; [exact same_ScaleDeps_trans|].
  destruct Hdeps as [Ht _]. cbn in Ht. rewrite !andb_true_iff in Ht.
  unfold Part000.same_ScaleDeps. cbn.
  rewrite (proj2 Ht). apply same_obj_refl.
Qed.

Lemma Part000_nodes_cell_again :
  Part000.nodes_cell p' s1 = Part000.nodes_cell p s.
Proof.
  unfold Part000.nodes_cell at 1.
  rewrite Hnodes, Part000_ticks_cell_again, Part000_scale_cell_again.
  apply useMemo_next; [exact same_NodesDeps_trans | apply (proj2 Hdeps)].
Qed.

Lemma Part000_XAxis_again :
  fst (Part000.XAxis p' s1) = fst (Part000.XAxis p s).
Proof. now rewrite !Part000_XAxis_cells, Part000_nodes_cell_again. Qed.

End Part000_again.

(** In [part_000] a render whose properties leave the dependencies of the
    memoised values as the previous render had them returns the nodes of
    the previous render, whatever else has changed: [labelRotate],
    [linePathEffect], the y scale, [zoom] and [enableRescaling] are not
    among the dependencies, and a matrix that the reaction has stored in
    between is not read. *)
Theorem X8_same_deps_same_nodes :
  forall (I : Imports) (p p' : Axis.Props) (s : Part000.AxisState)
         (value : option Matrix4),
    Part000_same_deps p p' ->
    fst (Part000.XAxis p' (snd (Part000.XAxis p s)))
      = fst (Part000.XAxis p s)
    /\ fst (Part000.XAxis p' (Part000.reaction value (snd (Part000.XAxis p s))))
       = fst (Part000.XAxis p s).
Proof.
  intros I p p' s value Hd.
  split; apply Part000_XAxis_again; try exact Hd;
    rewrite Part000_XAxis_cells; reflexivity.
Qed.

Lemma Part000_same_deps_rotated :
  Part000_same_deps Example.props Example2.props_rotated.
Proof.
  split; [reflexivity|]. intros t x.
  unfold Part000.same_NodesDeps, Part000.nodes_deps, same_obj.
  cbn [Part000.d_xTicksNormalized Part000.d_xScale].
  now rewrite !Ref_eqb_refl.
Qed.

Lemma X8_same_deps_same_nodes_witness :
  map (fun e => Rest.labelRotate (Axle.rest e))
    (fst (Part000.XAxis (I := Example.imports) Example2.props_rotated
            (Part000.reaction (Some Example.matrix2)
               (snd (Part000.XAxis (I := Example.imports) Example.props
                       Part000.mount_axis)))))
  = [None; None].
Proof.
  rewrite (proj2 (@X8_same_deps_same_nodes Example.imports Example.props
                    Example2.props_rotated Part000.mount_axis
                    (Some Example.matrix2) Part000_same_deps_rotated)).
  reflexivity.
Defined.

Lemma render_tree_drawn {H S}
    (XAxis : Axis.Props -> H -> list Axle.Props * H)
    (XAxle : Axle.Props -> S -> Drawn * S) (mount : S)
    (p : Axis.Props) (t : Tree H S) :
  fst (render_tree XAxis XAxle mount p t)
  = map (fun e =>
           fst (XAxle e (dflt (child_state (Axle.tick e) (children t)) mount)))
      (fst (XAxis p (hooks t))).
Proof.
  unfold render_tree. destruct (XAxis p (hooks t)) as [nodes h]. cbn.
  now rewrite map_map.
Qed.

Lemma render_tree_children {H S}
    (XAxis : Axis.Props -> H -> list Axle.Props * H)
    (XAxle : Axle.Props -> S -> Drawn * S) (mount : S)
    (p : Axis.Props) (t : Tree H S) :
  children (snd (render_tree XAxis XAxle mount p t))
  = map (fun e =>
           (Axle.tick e,
            snd (XAxle e
                   (dflt (child_state (Axle.tick e) (children t)) mount))))
      (fst (XAxis p (hooks t))).
Proof.
  unfold render_tree. destruct (XAxis p (hooks t)) as [nodes h]. cbn.
  now rewrite map_map.
Qed.

Lemma child_state_rendered {S} (f : Axle.Props -> S)
    (nodes : list Axle.Props) (e : Axle.Props) :
  NoDup (map Axle.tick nodes) -> In e nodes ->
  child_state (Axle.tick e) (map (fun e0 => (Axle.tick e0, f e0)) nodes)
  = Some (f e).
Proof.
  induction nodes as [|e0 nodes IH]; cbn; [contradiction|].
  intros Hnd [-> | Hin].
  - now rewrite Qceqb_refl.
  - inversion Hnd as [|? ? Hn Hnd']; subst.
    destruct (Qceqb (Axle.tick e0) (Axle.tick e)) eqn:E.
    + apply Qceqb_eq in E. contradiction Hn. rewrite E.
      now apply in_map.
    + now apply IH.
Qed.

Lemma Part000_XAxle_again `{Imports} (e : Axle.Props)
    (s : Part000.AxleState) :
  fst (Part000.XAxle e (snd (Part000.XAxle e s)))
  = fst (Part000.XAxle e s).
Proof.
  unfold Part000.XAxle.
  destruct (useMemo _ (Part000.memo_p1 s) _ _) as [a c1] eqn:E1.
  destruct (useMemo _ (Part000.memo_p2 s) _ _) as [b c2] eqn:E2.
  cbn [snd fst Part000.memo_p1 Part000.memo_p2].
  replace c1 with (snd (useMemo Part000.same_PointDeps (Part000.memo_p1 s)
                          (Leaf.calc_p1 e)
                          (Axle.tick e, Axle.xScale e, Axle.y2 e,
                           Axle.yScale e))) by now rewrite E1.
  replace c2 with (snd (useMemo Part000.same_PointDeps (Part000.memo_p2 s)
                          (Leaf.calc_p2 e)
                          (Axle.tick e, Axle.xScale e, Axle.y1 e,
                           Axle.yScale e))) by now rewrite E2.
  rewrite !useMemo_next
    by (exact same_PointDeps_trans || apply same_PointDeps_refl).
  now rewrite E1, E2.
Qed.

(** In [part_000], with distinct ticks, a render whose properties leave
    the dependencies of the memoised values as the previous render had
    them draws what the previous render drew, whatever else has changed
    and whatever matrix the reaction has stored in between. *)
Theorem X9_same_deps_same_drawing :
  forall (I : Imports) (p p' : Axis.Props)
         (t : Tree Part000.AxisState Part000.AxleState)
         (value : option Matrix4),
    Part000_same_deps p p' ->
    NoDup (map Axle.tick (fst (Part000.XAxis p (hooks t)))) ->
    fst (Part000.render p'
           (Part000.react value (snd (Part000.render p t))))
    = fst (Part000.render p t).
Proof.
  intros I p p' t value Hd Hnd. unfold Part000.render.
  rewrite (render_tree_drawn _ _ _ p'). unfold Part000.react.
  cbn [hooks children]. rewrite render_tree_hooks, render_tree_children.
  assert (E : fst (Part000.XAxis p'
                     (Part000.reaction value
                        (snd (Part000.XAxis p (hooks t)))))
              = fst (Part000.XAxis p (hooks t))).
  { apply Part000_XAxis_again; try exact Hd;
      rewrite Part000_XAxis_cells; reflexivity. }
  rewrite E.
  rewrite render_tree_drawn. apply map_ext_in. intros e He.
  rewrite (child_state_rendered _ _ _ Hnd He). cbn [dflt].
  apply Part000_XAxle_again.
Qed.

Lemma X9_same_deps_same_drawing_witness :
  map gridline_y
    (fst (Part000.render (I := Example.imports) Example2.props_rotated
            (Part000.react (Some Example.matrix2)
               (snd (Part000.render (I := Example.imports) Example.props
                       Part000.mount)))))
  = [[0; 200]; [0; 200]]%Q.
Proof.
  rewrite (@X9_same_deps_same_drawing Example.imports Example.props
             Example2.props_rotated Part000.mount (Some Example.matrix2)
             Part000_same_deps_rotated).
  - reflexivity.
  - cbn. repeat constructor.
    + intros [E | []]. apply (f_equal this) in E. discriminate E.
    + intros [].
Defined.

(** ** A new x scale *)

(** In [part_000], when the x scale of a render is another object than the
    one remembered with the memoised x scale, every leaf is handed the x
    scale made from the matrix that [matrixRef] holds at this render: the
    incoming x scale rescaled by [ZoomTransform(m[0], m[3], m[7])] when it
    holds a matrix [m], the incoming x scale itself when it holds none. *)
Theorem X10_new_scale_current_matrix :
  forall (I : Imports) (p : Axis.Props) (s : Part000.AxisState),
    Part000.reachable s -> Part000.coherent s p ->
    (forall xs xt v,
        Part000.memo_xScale s = Some ((xs, xt), v) ->
        ref xs <> ref (Axis.xScale p)) ->
    Forall (fun e =>
              match Part000.matrixRef s with
              | Some m =>
                  deref (Axle.xScale e)
                  = rescaleX (Part000.as_zoom m) (deref (Axis.xScale p))
              | None => Axle.xScale e = Axis.xScale p
              end)
           (fst (Part000.XAxis p s)).
Proof.
  intros I p s Hr Hco Hnew. apply Part000_reachable_ok in Hr.
  rewrite Part000_XAxis_cells. cbn [fst].
  destruct (Part000_nodes_value Hr Hco) as [_ Hf].
  eapply Forall_impl; [|exact Hf]. cbn. intros e ->.
  destruct (Part000_scale_cell p s)
    as [(d & Hc & _ & Hs) | (_ & [[-> ->] | (m & -> & ->)])].
  - destruct d as [xs xt]. exfalso. apply (Hnew _ _ _ Hc).
    unfold Part000.same_ScaleDeps in Hs. cbn in Hs.
    apply andb_true_iff in Hs as [Hs _]. now apply same_obj_ref.
  - reflexivity.
  - reflexivity.
Qed.

Lemma X10_new_scale_current_matrix_witness :
  map (fun e => this (tick_x e))
    (fst (Part000.XAxis (I := Example.imports) Example.props_04_steep
            (Part000.reaction (Some Example.matrix2)
               (snd (Part000.XAxis (I := Example.imports) Example.props
                       Part000.mount_axis)))))
  = [0; 160]%Q
  /\ Forall (fun e =>
               deref (Axle.xScale e)
               = @rescaleX Example.imports
                   (Part000.as_zoom Example.matrix2)
                   (deref Example.x_scale_steep))
       (fst (Part000.XAxis (I := Example.imports) Example.props_04_steep
               (Part000.reaction (Some Example.matrix2)
                  (snd (Part000.XAxis (I := Example.imports) Example.props
                          Part000.mount_axis))))).
Proof.
  split; [reflexivity|].
  apply (@X10_new_scale_current_matrix Example.imports
           Example.props_04_steep
           (Part000.reaction (Some Example.matrix2)
              (snd (Part000.XAxis (I := Example.imports) Example.props
                      Part000.mount_axis)))).
  - apply Part000.reach_reaction, Part000.reach_render.
    + exact Logic.I.
    + apply Part000.reach_mount.
  - split; [exact Logic.I|]. split; [|split].
    + intros tv tc xs v Hc. cbn in Hc. injection Hc as <- <- <- <-. split.
      * intros E. discriminate E.
      * intros a b Ha Hb. injection Ha as <-. cbn in Hb. injection Hb as <-.
        intros E. discriminate E.
    + intros xs xt v Hc. cbn in Hc. injection Hc as <- _ _.
      intros E. discriminate E.
    + intros d nodes Hc. cbn in Hc. injection Hc as <- _.
      intros E. discriminate E.
  - intros xs xt v Hc. cbn in Hc. injection Hc as <- _ _.
    intros E. discriminate E.
Defined.

(** ** C8: what a render depends on *)

Lemma same_TicksDeps_refl (a : Part000.TicksDeps) :
  Part000.same_TicksDeps a a = true.
Proof.
  destruct a as [[v c] x]. cbn.
  rewrite Qceqb_refl, same_obj_refl, same_opt_refl; [reflexivity|].
  intros y. apply same_obj_refl.
Qed.

Lemma same_NodesDeps_refl (a : Part000.NodesDeps) :
  Part000.same_NodesDeps a a = true.
Proof.
  unfold Part000.same_NodesDeps.
  rewrite !same_obj_refl, !Qceqb_refl, Bool.eqb_reflx.
  rewrite !same_opt_refl; try reflexivity.
  all: first [ exact (@same_obj_refl _) | exact Qceqb_refl
             | exact Ref_eqb_refl | exact String.eqb_refl
             | (intros x; now destruct x) ].
Qed.

Lemma Part000_same_deps_refl (p : Axis.Props) : Part000_same_deps p p.
Proof.
  split; [apply same_TicksDeps_refl | intros t x; apply same_NodesDeps_refl].
Qed.

(** In [part_000], a tree that has the memoised values and the leaves of
    the render of [p] is drawn by [p'] as [p] was drawn, when [p'] leaves
    the dependencies as [p] has them. *)
Lemma Part000_render_again `{Imports} (p p' : Axis.Props)
    (t t1 : Tree Part000.AxisState Part000.AxleState) :
  Part000_same_deps p p' ->
  NoDup (map Axle.tick (fst (Part000.XAxis p (hooks t)))) ->
  children t1 = children (snd (Part000.render p t)) ->
  Part000.memo_xTicksNormalized (hooks t1)
    = snd (Part000.ticks_cell p (hooks t)) ->
  Part000.memo_xScale (hooks t1) = snd (Part000.scale_cell p (hooks t)) ->
  Part000.memo_xAxisNodes (hooks t1) = snd (Part000.nodes_cell p (hooks t)) ->
  fst (Part000.render p' t1) = fst (Part000.render p t).
Proof.
  intros Hd Hnd Hch H1 H2 H3. unfold Part000.render in *.
  rewrite (render_tree_drawn _ _ _ p'), Hch, render_tree_children.
  rewrite (@Part000_XAxis_again _ p p' (hooks t) (hooks t1) Hd H1 H2 H3).
  rewrite render_tree_drawn. apply map_ext_in. intros e He.
  rewrite (child_state_rendered _ _ _ Hnd He). cbn [dflt].
  apply Part000_XAxle_again.
Qed.

(** In [XAxis.tsx] a leaf reads its x scale by calling it: the reference
    of the rescaled x scale, new at every render, is not seen in what is
    drawn, and a leaf rendered again for the same tick finds its two
    points. *)
Lemma Lib_XAxle_again `{Imports} (p : Axis.Props) (r r' : Ref)
    (tick : number) (s : Lib.AxleState) :
  fst (Lib.XAxle (Lib.element p (Lib.xScale p r') tick)
         (snd (Lib.XAxle (Lib.element p (Lib.xScale p r) tick) s)))
  = fst (Lib.XAxle (Lib.element p (Lib.xScale p r) tick) s).
Proof.
  unfold Lib.XAxle. cbn [Axle.tick Lib.element].
  set (e := Lib.element p (Lib.xScale p r) tick).
  set (e' := Lib.element p (Lib.xScale p r') tick).
  destruct (useMemo Qceqb (Lib.memo_p1 s) (Leaf.calc_p1 e) tick)
    as [a c1] eqn:E1.
  destruct (useMemo Qceqb (Lib.memo_p2 s) (Leaf.calc_p2 e) tick)
    as [b c2] eqn:E2.
  cbn [snd fst Lib.memo_p1 Lib.memo_p2].
  replace c1 with (snd (useMemo Qceqb (Lib.memo_p1 s) (Leaf.calc_p1 e) tick))
    by now rewrite E1.
  replace c2 with (snd (useMemo Qceqb (Lib.memo_p2 s) (Leaf.calc_p2 e) tick))
    by now rewrite E2.
  rewrite !useMemo_next by (exact Qceqb_trans || apply Qceqb_refl).
  rewrite E1, E2. cbn [fst]. subst e e'. unfold Lib.xScale.
  destruct (Axis.zoom p); reflexivity.
Qed.

Lemma Lib_ticks_of_ref `{Imports} (p : Axis.Props) (r : Ref) :
  Lib.xTicksNormalized p (Lib.xScale p r) = claimed_ticks (ticks_scale p) p.
Proof.
  unfold Lib.xTicksNormalized, claimed_ticks, ticks_scale, Lib.xScale.
  destruct (Axis.tickValues p); [reflexivity|].
  destruct (Axis.zoom p), (Axis.enableRescaling p); reflexivity.
Qed.

(** In [XAxis.tsx] a render given the parameters of the render before it
    draws what that render drew. *)
Lemma Lib_render_again `{Imports} (p : Axis.Props)
    (t : Tree Lib.AxisState Lib.AxleState) :
  Lib.reachable (hooks t) ->
  NoDup (claimed_ticks (ticks_scale p) p) ->
  fst (Lib.render p (snd (Lib.render p t))) = fst (Lib.render p t).
Proof.
  intros Hr Hnd. unfold Lib.render.
  rewrite (render_tree_drawn _ _ _ p (snd _)).
  rewrite render_tree_hooks, render_tree_children, render_tree_drawn.
  rewrite (Lib_XAxis_nodes p (Lib.reach_render p Hr)).
  rewrite (Lib_XAxis_nodes p Hr), !Lib_ticks_of_ref.
  set (r := Loc (Lib.next (hooks t))).
  set (r' := Loc (Lib.next (snd (Lib.XAxis p (hooks t))))).
  set (nodes := map (Lib.element p (Lib.xScale p r))
                  (claimed_ticks (ticks_scale p) p)).
  unfold nodes at 2. rewrite !map_map. apply map_ext_in. intros tick Hin.
  cbn [Axle.tick Lib.element]. subst nodes.
  rewrite (child_state_rendered
             (fun e0 =>
                snd (Lib.XAxle e0
                       (dflt (child_state (Axle.tick e0) (children t))
                          Lib.mount_axle)))
             (map (Lib.element p (Lib.xScale p r))
                (claimed_ticks (ticks_scale p) p))
             (Lib.element p (Lib.xScale p r) tick)).
  - cbn [dflt Axle.tick Lib.element]. apply Lib_XAxle_again.
  - rewrite map_map. cbn [Axle.tick Lib.element]. now rewrite map_id.
  - now apply in_map.
Qed.

(** C8, as the code has it. The axis keeps entities of its own from one
    render to the next: the [useMemo] cells of both versions and, in
    [part_000], [matrixRef], which the animated reaction writes.  What of
    the claim holds all the same:

    - the first render of an axis is a pure function of the parameters
      passed in, in both versions;
    - the tick set of a render is a pure function of the parameters passed
      in, whatever was rendered before, in both versions (in [part_000],
      the enclosing chart not changing an object in place);
    - in [XAxis.tsx], the tick list being a new array at every render, the
      labels of a render are a pure function of the parameters passed in,
      whatever was rendered before;
    - with distinct ticks, a render given the parameters of the render
      before it draws what that render drew: in [XAxis.tsx], and in
      [part_000], there also when the reaction has stored a matrix in
      between. *)
Theorem C8_render_state :
  forall (I : Imports) (p : Axis.Props),
    (fst (Lib.render p Lib.mount)
     = map (fresh_draw Lib.canFitLabelContent)
         (map (Lib.element p (Lib.xScale p (Loc 0)))
            (claimed_ticks (ticks_scale p) p))
     /\ fst (Part000.render p Part000.mount)
        = map (fresh_draw Part000.canFitLabelContent)
            (map (Part000.element p (Axis.xScale p))
               (claimed_ticks (deref (Axis.xScale p)) p)))
    /\ (forall t : Tree Lib.AxisState Lib.AxleState,
          Lib.reachable (hooks t) ->
          map Axle.tick (fst (Lib.XAxis p (hooks t)))
            = map Axle.tick (fst (Lib.XAxis p Lib.mount_axis))
          /\ map label (fst (Lib.render p t))
             = map label (fst (Lib.render p Lib.mount))
          /\ (NoDup (map Axle.tick (fst (Lib.XAxis p (hooks t)))) ->
              fst (Lib.render p (snd (Lib.render p t)))
              = fst (Lib.render p t)))
    /\ (forall t : Tree Part000.AxisState Part000.AxleState,
          Part000.reachable (hooks t) ->
          Part000.coherent (hooks t) p ->
          map Axle.tick (fst (Part000.XAxis p (hooks t)))
          = map Axle.tick (fst (Part000.XAxis p Part000.mount_axis)))
    /\ (forall t value,
          NoDup (map Axle.tick (fst (Part000.XAxis p (hooks t)))) ->
          fst (Part000.render p (snd (Part000.render p t)))
            = fst (Part000.render p t)
          /\ fst (Part000.render p
                    (Part000.react value (snd (Part000.render p t))))
             = fst (Part000.render p t)).
Proof.
  intros I p. split; [|split; [|split]].
  - apply first_render_fresh.
  - intros t Hr.
    assert (Ht : forall s, Lib.reachable s ->
                   map Axle.tick (fst (Lib.XAxis p s))
                   = claimed_ticks (ticks_scale p) p).
    { intros s Hs. rewrite (Lib_XAxis_nodes p Hs), map_map.
      cbn [Axle.tick Lib.element]. rewrite map_id. apply Lib_ticks_of_ref. }
    split; [|split].
    + now rewrite (Ht _ Hr), (Ht _ Lib.reach_mount).
    + unfold Lib.render.
      rewrite !(render_tree_labels _ _ _
                  (fun e => Leaf.text_node e (Lib.canFitLabelContent e)))
        by (intros; apply Lib_XAxle_label).
      rewrite (Lib_XAxis_nodes p Hr), (Lib_XAxis_nodes p Lib.reach_mount).
      apply Lib_label_of_ref.
    + rewrite (Ht _ Hr). now apply Lib_render_again.
  - intros t Hr Hco.
    destruct (Part000_XAxis_nodes Hr Hco) as [-> _].
    rewrite Part000_XAxis_mount, map_map. cbn [Axle.tick Part000.element].
    now rewrite map_id.
  - intros t value Hnd.
    split;
      apply (@Part000_render_again I p p t _ (Part000_same_deps_refl p) Hnd);
      unfold Part000.render, Part000.react;
      cbn [hooks children Part000.reaction Part000.memo_xTicksNormalized
           Part000.memo_xScale Part000.memo_xAxisNodes];
      rewrite ?render_tree_hooks, ?Part000_XAxis_cells; reflexivity.
Qed.

(** The example chart rendered with tick values 0 and 4 after a render
    with other properties, then rendered again: the gridlines of the two
    renders are the same. *)
Lemma C8_render_state_witness :
  NoDup (map Axle.tick
           (fst (Lib.XAxis (I := Example.imports) Example.props_04_steep
                   (hooks (snd (Lib.render (I := Example.imports)
                                  Example.props Lib.mount))))))
  /\ fst (Lib.render (I := Example.imports) Example.props_04_steep
            (snd (Lib.render (I := Example.imports) Example.props_04_steep
                    (snd (Lib.render (I := Example.imports) Example.props
                            Lib.mount)))))
     = fst (Lib.render (I := Example.imports) Example.props_04_steep
              (snd (Lib.render (I := Example.imports) Example.props
                      Lib.mount))).
Proof.
  assert (Hnd : NoDup (map Axle.tick
                 (fst (Lib.XAxis (I := Example.imports) Example.props_04_steep
                         (hooks (snd (Lib.render (I := Example.imports)
                                        Example.props Lib.mount))))))).
  { cbn. repeat constructor.
    - intros [E | []]. apply (f_equal this) in E. discriminate E.
    - intros []. }
  split; [exact Hnd|].
  apply (proj1 (proj2 (C8_render_state Example.imports
                         Example.props_04_steep))).
  - unfold Lib.render. rewrite render_tree_hooks.
    apply Lib.reach_render, Lib.reach_mount.
  - exact Hnd.
Defined.

(** The claim fails in [part_000], in two ways.

    [matrixRef] outlives the render.  The example chart draws its ticks 0
    and 10 at 0 and 100 when it is first rendered.  Rendered with the same
    properties after a render with other tick values and a reaction that
    stored a zoom by two in [matrixRef], it draws them at 0 and 200.

    The nodes are remembered, and the y scale is left out of their
    dependencies.  On a canvas half as high again the first render draws
    the gridlines from 0 to 300; the same properties after a render on the
    lower canvas draw them from 0 to 200. *)
Lemma C8_stateless_counterexample :
  (map gridline_x
     (fst (Part000.render (I := Example.imports) Example.props
             Part000.mount))
   = [[0; 0]; [100; 100]]%Q
   /\ map label_x
        (fst (Part000.render (I := Example.imports) Example.props
                Part000.mount))
      = [Some (-3); Some 94]%Q
   /\ Part000.matrixRef
        (hooks (Part000.react (Some Example.matrix2)
                  (snd (Part000.render (I := Example.imports)
                          Example.props_outside Part000.mount))))
      = Some Example.matrix2
   /\ map gridline_x
        (fst (Part000.render (I := Example.imports) Example.props
                (Part000.react (Some Example.matrix2)
                   (snd (Part000.render (I := Example.imports)
                           Example.props_outside Part000.mount)))))
      = [[0; 0]; [200; 200]]%Q
   /\ map label_x
        (fst (Part000.render (I := Example.imports) Example.props
                (Part000.react (Some Example.matrix2)
                   (snd (Part000.render (I := Example.imports)
                           Example.props_outside Part000.mount)))))
      = [Some (-3); Some 194]%Q)
  /\ (map gridline_y
        (fst (Part000.render (I := Example.imports) Example.props_tall
                Part000.mount))
      = [[0; 300]; [0; 300]]%Q
      /\ map gridline_y
           (fst (Part000.render (I := Example.imports) Example.props_tall
                   (snd (Part000.render (I := Example.imports) Example.props
                           Part000.mount))))
         = [[0; 200]; [0; 200]]%Q).
Proof.
  split; [split; [|split; [|split; [|split]]] | split];
    vm_compute; reflexivity.
Qed.

